(** * Data-analyst agent: the adaptive RAG core and the code executor

  A shallow embedding of [rag_system.py] (class [RAGAdaptiveSystem]) and of
  the request handlers of [main.py] that use it ([safe_exec], [analyze],
  [submit_feedback]).

  Conventions.
  - Python [float] is IEEE binary64: scores are primitive floats, and the
    literals [0.3], [0.7], ... denote the nearest binary64 value, as in
    Python.
  - Python [str] is modelled by [string]; [str.lower] is modelled on the
    ASCII letters, which are the only characters of the keyword lists.
  - A Python [dict] used as a map is a [gmap string _].
  - A call that may raise returns an [option] or a sum; [None] / [inl e]
    stands for the raised exception. The exceptions of the collaborators
    derive from [Exception]; those of the executed code need not.
  - The embedding model, the vector index and the JSON codec are external
    libraries: they are the fields of the class [External]. *)

From Stdlib Require Import PrimFloat Floats Ascii.
From stdpp Require Import gmap strings list pretty sorting.

Set Warnings "-inexact-float,-register-all".

(** ** Python strings *)

Module PyStr.

(** The line feed, written [\n] in the source. *)
Definition nl : string := String (ascii_of_nat 10) EmptyString.

(** [c.lower()] on one character: [A]..[Z] are moved to [a]..[z]. *)
Definition lower_char (c : ascii) : ascii :=
  let n := nat_of_ascii c in
  if (65 <=? n)%nat && (n <=? 90)%nat then ascii_of_nat (n + 32) else c.

(** [s.lower()] *)
Fixpoint lower (s : string) : string :=
  match s with
  | EmptyString => EmptyString
  | String c s' => String (lower_char c) (lower s')
  end.

(** [s.startswith(w)] *)
Fixpoint startswith (w s : string) : bool :=
  match w, s with
  | EmptyString, _ => true
  | String _ _, EmptyString => false
  | String a w', String b s' => Ascii.eqb a b && startswith w' s'
  end.

(** [w in s]: [w] occurs in [s] as a contiguous substring. *)
Fixpoint contains (w s : string) : bool :=
  startswith w s ||
  match s with
  | EmptyString => false
  | String _ s' => contains w s'
  end.

(** [bool(s)]: a string is truthy when it is not empty. *)
Definition truthy (s : string) : bool :=
  match s with EmptyString => false | String _ _ => true end.

(** [s[:n]] *)
Fixpoint slice_to (n : nat) (s : string) : string :=
  match n, s with
  | O, _ => EmptyString
  | S _, EmptyString => EmptyString
  | S n', String c s' => String c (slice_to n' s')
  end.

(** [sep.join(parts)] *)
Fixpoint join (sep : string) (parts : list string) : string :=
  match parts with
  | [] => EmptyString
  | [p] => p
  | p :: rest => p +:+ sep +:+ join sep rest
  end.

(** Case-insensitive comparison of two characters, and the
    case-insensitive substring test the specification speaks of: [w]
    matches at some position of [s], letters compared without regard to
    case. *)
Definition ci_eqb (a b : ascii) : bool :=
  Ascii.eqb (lower_char a) (lower_char b).

Fixpoint ci_startswith (w s : string) : bool :=
  match w, s with
  | EmptyString, _ => true
  | String _ _, EmptyString => false
  | String a w', String b s' => ci_eqb a b && ci_startswith w' s'
  end.

Fixpoint ci_contains (w s : string) : bool :=
  ci_startswith w s ||
  match s with
  | EmptyString => false
  | String _ s' => ci_contains w s'
  end.

End PyStr.

(** ** Python values and floats *)

(** The values a generated program may bind to [result] (the type [Any] of
  the source). [PyObject] stands for any other object, named by its
  class. *)
Inductive PyValue : Type :=
| PyNone
| PyBool (b : bool)
| PyInt (z : Z)
| PyFloat (f : float)
| PyStr (s : string)
| PyTuple (items : list PyValue)
| PyList (items : list PyValue)
| PyDict (items : list (PyValue * PyValue))
| PyObject (class_name : string).

Module PyFloat.

(** [min(a, b)] and [max(a, b)] of Python: the first argument is kept
    unless the second is strictly smaller (resp. larger). *)
Definition min (a b : float) : float := if (b <? a)%float then b else a.
Definition max (a b : float) : float := if (a <? b)%float then b else a.

(** [bool(x)]: a float is truthy when it is not zero. *)
Definition truthy (x : float) : bool := negb (x =? 0)%float.

End PyFloat.

(** ** The success scorer ([rag_system.py], [calculate_success_score]) *)

Module Scorer.

Definition positive_words : list string :=
  ["good"; "great"; "excellent"; "perfect"].
Definition negative_words : list string :=
  ["bad"; "wrong"; "error"; "failed"].

(** [result is not None] *)
Definition is_not_none (result : PyValue) : bool :=
  match result with PyNone => false | _ => true end.

(** [isinstance(result, (dict, list))] *)
Definition isinstance_dict_list (result : PyValue) : bool :=
  match result with PyDict _ | PyList _ => true | _ => false end.

(** [len(result)], for the two classes on which the source calls it. *)
Definition len (result : PyValue) : nat :=
  match result with
  | PyDict items => length items
  | PyList items => length items
  | _ => 0
  end.

(** [any(word in text for word in words)] *)
Definition any_word_in (words : list string) (text : string) : bool :=
  existsb (fun word => PyStr.contains word text) words.

Definition calculate_success_score
    (result : PyValue) (user_feedback : option string) : float :=
  let score := 0.5%float in
  let score := if is_not_none result then (score + 0.3)%float else score in
  let score :=
    if isinstance_dict_list result && (0 <? len result)%nat
    then (score + 0.2)%float else score in
  let score :=
    match user_feedback with
    | Some feedback =>
        if PyStr.truthy feedback then
          let feedback_lower := PyStr.lower feedback in
          if any_word_in positive_words feedback_lower
          then (score + 0.3)%float
          else if any_word_in negative_words feedback_lower
          then (score - 0.3)%float
          else score
        else score
    | None => score
    end in
  PyFloat.max 0 (PyFloat.min 1 score).

(** *** The reference heuristic, as the specification words it

    "Keyed mapping" and "ordered sequence" are the specification's names
    for the two container classes of the result, [dict] and [list] (it
    calls the helpers' lists of row dictionaries "ordered sequences of row
    mappings"). *)

Definition present (result : PyValue) : bool :=
  match result with PyNone => false | _ => true end.

Definition nonempty_mapping_or_sequence (result : PyValue) : bool :=
  match result with
  | PyDict (_ :: _) => true
  | PyList (_ :: _) => true
  | _ => false
  end.

Definition mentions (words : list string) (text : string) : bool :=
  existsb (fun word => PyStr.ci_contains word text) words.

Definition clamp01 (x : float) : float :=
  if (x <? 0)%float then 0%float
  else if (1 <? x)%float then 1%float
  else x.

Definition reference_score
    (result : PyValue) (feedback : option string) : float :=
  let base := 0.5%float in
  let with_presence := if present result then (base + 0.3)%float else base in
  let with_structure :=
    if nonempty_mapping_or_sequence result
    then (with_presence + 0.2)%float else with_presence in
  let adjusted :=
    match feedback with
    | None => with_structure
    | Some text =>
        if mentions positive_words text then (with_structure + 0.3)%float
        else if mentions negative_words text then (with_structure - 0.3)%float
        else with_structure
    end in
  clamp01 adjusted.

End Scorer.

(** ** The vector store (one ChromaDB collection) *)

Module Chroma.

(** The scalar values of a metadata dictionary. *)
Inductive MetaValue : Type :=
| MetaStr (s : string)
| MetaFloat (f : float)
| MetaNone.

(** One stored record: what [collection.add(embeddings=[e], documents=[d],
    metadatas=[m], ids=[i])] writes. *)
Record Entry (E : Type) : Type := mkEntry {
  entry_id : string;
  entry_embedding : E;
  entry_document : string;
  entry_metadata : gmap string MetaValue
}.
Arguments mkEntry {E} _ _ _ _.
Arguments entry_id {E} _.
Arguments entry_embedding {E} _.
Arguments entry_document {E} _.
Arguments entry_metadata {E} _.

(** [collection.count()] *)
Definition count {E} (c : list (Entry E)) : nat := length c.

(** [collection.get()['ids']] *)
Definition ids {E} (c : list (Entry E)) : list string := entry_id <$> c.

(** What [collection.add] does with an id that the collection already
    holds: releases of the library either drop the new record silently or
    raise. No release stores two records under one id. *)
Inductive DuplicatePolicy : Type := DuplicateIgnored | DuplicateRaises.

(** [collection.add(...)], one record; [None] when it raises. The library
    first validates the metadata dictionary ([accepts]; releases differ on
    empty dictionaries and on [None] values), then looks at the id. *)
Definition add {E} (accepts : gmap string MetaValue -> bool)
    (policy : DuplicatePolicy)
    (c : list (Entry E)) (e : Entry E) : option (list (Entry E)) :=
  if accepts (entry_metadata e) then
    if bool_decide (entry_id e ∈ ids c) then
      match policy with
      | DuplicateIgnored => Some c
      | DuplicateRaises => None
      end
    else Some (c ++ [e])
  else None.

End Chroma.

(** ** Interactions ([rag_system.py], dataclass [Interaction]) *)

(** The seven fields of the dataclass. [timestamp] holds the ISO text of
    the [datetime]. [attr_interaction_id] is not a field of the dataclass:
    it is the instance attribute [interaction_id] that [submit_feedback]
    looks for with [hasattr]; the constructor leaves it absent. *)
Record Interaction : Type := mkInteraction {
  timestamp : string;
  user_query : string;
  generated_code : string;
  execution_result : PyValue;
  user_feedback : option string;
  success_score : option float;
  context_used : option (list string);
  attr_interaction_id : option string
}.

(** [Interaction(timestamp=.., user_query=.., generated_code=..,
    execution_result=.., success_score=.., context_used=..)], as [analyze]
    calls the constructor. *)
Definition new_interaction (timestamp user_query generated_code : string)
    (execution_result : PyValue) (success_score : option float)
    (context_used : option (list string)) : Interaction :=
  mkInteraction timestamp user_query generated_code execution_result
                None success_score context_used None.

(** [score and score > 0.7], the test that guards learning and the prompt
    excerpt. *)
Definition is_successful (score : option float) : bool :=
  match score with
  | Some s => PyFloat.truthy s && (0.7 <? s)%float
  | None => false
  end.

(** ** External collaborators *)

Class External : Type := {
  Embedding : Type;
  (** [embedding_model.encode(text).tolist()]; [None] when it raises. *)
  encode : string -> option Embedding;
  (** The metadata dictionaries that [collection.add] accepts. *)
  accepts_metadata : gmap string Chroma.MetaValue -> bool;
  (** The behaviour of [collection.add] on a duplicate id. *)
  on_duplicate : Chroma.DuplicatePolicy;
  (** The distance by which the index ranks. *)
  distance : Embedding -> Embedding -> Z;
  (** [collection.query(query_embeddings=[v], n_results=k)['documents']]:
      [None] when the call raises, else the value under ['documents'],
      which is [None] or one list of documents per query embedding. *)
  query_documents :
    list (Chroma.Entry Embedding) -> Embedding -> Z ->
    option (option (list (list string)));
  (** [json.dumps(interaction.__dict__, default=str)]; [None] when it
      raises. *)
  dumps : Interaction -> option string;
  (** The [Interaction] rebuilt from the keys of [json.loads(doc)]; [None]
      when either step raises. *)
  loads : string -> option Interaction
}.

(** What the index promises for the first query embedding: at most
    [n_results] documents, taken from the collection, nearest first. *)
Definition index_contract `{External} : Prop :=
  forall c v k docs rest,
    query_documents c v k = Some (Some (docs :: rest)) ->
    exists hits : list (Chroma.Entry Embedding),
      docs = Chroma.entry_document <$> hits /\
      hits ⊆+ c /\
      (Z.of_nat (length hits) <= Z.max 0 k)%Z /\
      Sorted (fun a b => (distance v (Chroma.entry_embedding a)
                          <= distance v (Chroma.entry_embedding b))%Z) hits.

(** ** The adaptive system ([rag_system.py], class [RAGAdaptiveSystem]) *)

Module Rag.
Import Chroma.

(** One element of the list given to [add_contexts]: a dictionary with the
    key ["content"] and, optionally, the key ["metadata"]. *)
Record ContextItem : Type := mkContext {
  content : string;
  metadata : option (gmap string MetaValue)
}.

(** The five entries of [default_contexts]. *)
Definition default_contexts : list ContextItem := [
  mkContext
    "Data scraping from web tables using scrape_table_from_url() function"
    (Some {[ "type" := MetaStr "data_source";
             "category" := MetaStr "web_scraping" ]});
  mkContext
    "SQL queries using DuckDB with run_duckdb_query() function"
    (Some {[ "type" := MetaStr "data_analysis";
             "category" := MetaStr "sql" ]});
  mkContext
    "Creating visualizations with matplotlib and encoding as base64"
    (Some {[ "type" := MetaStr "visualization";
             "category" := MetaStr "plotting" ]});
  mkContext
    "Pandas data manipulation and analysis techniques"
    (Some {[ "type" := MetaStr "data_analysis";
             "category" := MetaStr "pandas" ]});
  mkContext
    "Statistical analysis using numpy and scikit-learn"
    (Some {[ "type" := MetaStr "data_analysis";
             "category" := MetaStr "statistics" ]})
].

(** The content and the metadata of a learned pattern. *)
Definition learned_content (interaction : Interaction) : string :=
  "Successful code pattern for: " +:+ user_query interaction +:+ PyStr.nl
  +:+ "Code: " +:+ generated_code interaction.

Definition meta_of_score (score : option float) : MetaValue :=
  match score with Some s => MetaFloat s | None => MetaNone end.

Definition meta_of_text (text : option string) : MetaValue :=
  match text with Some s => MetaStr s | None => MetaNone end.

Definition learned_metadata (interaction : Interaction)
  : gmap string MetaValue :=
  {[ "type" := MetaStr "learned_pattern";
     "success_score" := meta_of_score (success_score interaction);
     "original_query" := MetaStr (user_query interaction) ]}.

Definition learned_context (interaction : Interaction) : ContextItem :=
  mkContext (learned_content interaction)
            (Some (learned_metadata interaction)).

(** The metadata stored with an interaction. *)
Definition interaction_metadata (interaction : Interaction)
  : gmap string MetaValue :=
  {[ "timestamp" := MetaStr (timestamp interaction);
     "success_score" := meta_of_score (success_score interaction);
     "feedback" := meta_of_text (user_feedback interaction) ]}.

(** The fixed lines of the prompt. *)
Definition prompt_head : list string := [
  "You are a data analyst agent with access to the following helpers:";
  "- scrape_table_from_url(url)";
  "- run_duckdb_query(query, files=None)";
  "- plot_and_encode_base64(fig)";
  "";
  "Relevant context for this type of task:"
].

Definition patterns_header : string :=
  PyStr.nl +:+ "Similar successful patterns:".

Definition prompt_tail (query : string) : list string := [
  "";
  "Task: " +:+ query;
  "";
  "Generate Python code that uses the helpers above. The final answer must be stored in a variable named 'result'.";
  "Return only the code, no explanation."
].

(** The two lines appended for one qualifying interaction. *)
Definition pattern_lines (interaction : Interaction) : list string := [
  "- Query: " +:+ user_query interaction;
  "- Successful code: "
    +:+ PyStr.slice_to 200 (generated_code interaction) +:+ "..."
].

Section WithExternal.
Context `{External}.

(** The state of the system: the two collections and the in-memory
    history. (The pickled copy of the history is written after every
    append; a failed write is logged and changes nothing here.) *)
Record RAGAdaptiveSystem : Type := mkRAG {
  context_collection : list (Entry Embedding);
  interaction_collection : list (Entry Embedding);
  interaction_history : list Interaction
}.

(** The loop of [add_contexts], from index [i] on. The whole loop is inside
    one [try]: the first exception ends it, and the entries added so far
    stay. *)
Fixpoint add_contexts_from (i : nat) (contexts : list ContextItem)
    (c : list (Entry Embedding)) : list (Entry Embedding) :=
  match contexts with
  | [] => c
  | context :: rest =>
      match encode (content context) with
      | None => c
      | Some embedding =>
          let new_id := "context_" +:+ pretty (length (ids c) + i) in
          match add accepts_metadata on_duplicate c
                    (mkEntry new_id embedding (content context)
                             (default ∅ (metadata context))) with
          | None => c
          | Some c' => add_contexts_from (S i) rest c'
          end
      end
  end.

Definition add_contexts (self : RAGAdaptiveSystem)
    (contexts : list ContextItem) : RAGAdaptiveSystem :=
  mkRAG (add_contexts_from 0 contexts (context_collection self))
        (interaction_collection self)
        (interaction_history self).

Definition _initialize_knowledge_base (self : RAGAdaptiveSystem)
  : RAGAdaptiveSystem :=
  if (count (context_collection self) =? 0)%nat
  then add_contexts self default_contexts
  else self.

Definition retrieve_relevant_context (self : RAGAdaptiveSystem)
    (query : string) (top_k : Z) : list string :=
  match encode query with
  | None => []
  | Some query_embedding =>
      match query_documents (context_collection self)
                            query_embedding top_k with
      | None => []
      | Some None => []
      | Some (Some []) => []
      | Some (Some (first :: _)) => first
      end
  end.

Definition _learn_from_successful_interaction (self : RAGAdaptiveSystem)
    (interaction : Interaction) : RAGAdaptiveSystem :=
  if PyStr.truthy (generated_code interaction)
  then add_contexts self [learned_context interaction]
  else self.

Definition add_interaction (self : RAGAdaptiveSystem)
    (interaction : Interaction) : RAGAdaptiveSystem :=
  match encode (user_query interaction) with
  | None => self
  | Some interaction_embedding =>
      match dumps interaction with
      | None => self
      | Some document =>
          let new_id :=
            "interaction_"
            +:+ pretty (length (ids (interaction_collection self))) in
          match add accepts_metadata on_duplicate
                    (interaction_collection self)
                    (mkEntry new_id interaction_embedding document
                             (interaction_metadata interaction)) with
          | None => self
          | Some stored =>
              let self :=
                mkRAG (context_collection self) stored
                      (interaction_history self ++ [interaction]) in
              if is_successful (success_score interaction)
              then _learn_from_successful_interaction self interaction
              else self
          end
      end
  end.

(** The loop of [get_similar_interactions]: a document that cannot be
    parsed is skipped. *)
Fixpoint parse_interactions (docs : list string) : list Interaction :=
  match docs with
  | [] => []
  | doc :: rest =>
      match loads doc with
      | Some interaction => interaction :: parse_interactions rest
      | None => parse_interactions rest
      end
  end.

Definition get_similar_interactions (self : RAGAdaptiveSystem)
    (query : string) (top_k : Z) : list Interaction :=
  match encode query with
  | None => []
  | Some query_embedding =>
      match query_documents (interaction_collection self)
                            query_embedding top_k with
      | Some (Some (first :: _)) => parse_interactions first
      | _ => []
      end
  end.

(** The list [prompt_parts] that [get_adaptive_prompt] builds: each loop
    appends to the list built so far. *)
Definition append_context (parts : list string) (context : string)
  : list string :=
  parts ++ ["- " +:+ context].

Definition append_pattern (parts : list string) (interaction : Interaction)
  : list string :=
  if is_successful (success_score interaction)
  then parts ++ pattern_lines interaction
  else parts.

Definition prompt_parts (query : string) (relevant_context : list string)
    (similar_interactions : list Interaction) : list string :=
  let parts := prompt_head in
  let parts := fold_left append_context relevant_context parts in
  let parts :=
    match similar_interactions with
    | [] => parts
    | _ :: _ =>
        fold_left append_pattern similar_interactions
                  (parts ++ [patterns_header])
    end in
  parts ++ prompt_tail query.

Definition get_adaptive_prompt (self : RAGAdaptiveSystem) (query : string)
  : string :=
  let relevant_context := retrieve_relevant_context self query 3 in
  let similar_interactions := get_similar_interactions self query 2 in
  PyStr.join PyStr.nl (prompt_parts query relevant_context
                                    similar_interactions).

End WithExternal.

End Rag.

(** ** The request handlers ([main.py]) *)

Module Main.
Import Chroma Rag.

(** The exceptions that matter to the handlers. [NonException] stands for
    an exception whose class does not derive from [Exception]
    ([SystemExit], [KeyboardInterrupt], [GeneratorExit]). *)
Inductive PyException : Type :=
| TimeoutError
| HTTPException (status_code : Z) (detail : string)
| OtherException (description : string)
| NonException (class_name : string).

(** [isinstance(e, Exception)]: what [except Exception] catches. *)
Definition is_exception (e : PyException) : bool :=
  match e with
  | NonException _ => false
  | _ => true
  end.

(** *** [safe_exec]: the namespaces *)

(** The objects bound to names in the namespaces handed to [exec]. *)
Inductive NamespaceObject : Type :=
| BuiltinsModule
| BuiltinFunction (name : string)
| HelperFunction (name : string)
| LibraryModule (name : string).

(** The dictionary [allowed_globals], built anew by every call. *)
Definition allowed_globals : gmap string NamespaceObject :=
  {[ "__builtins__" := BuiltinsModule;
     "scrape_table_from_url" := HelperFunction "scrape_table_from_url";
     "run_duckdb_query" := HelperFunction "run_duckdb_query";
     "plot_and_encode_base64" := HelperFunction "plot_and_encode_base64";
     "pd" := LibraryModule "pandas";
     "np" := LibraryModule "numpy";
     "plt" := LibraryModule "matplotlib.pyplot" ]}.

(** The dictionary [local_vars] at the start of the execution. *)
Definition local_vars : gmap string NamespaceObject := ∅.

(** The three helpers and the three library handles. *)
Definition whitelist : gset string :=
  {[ "scrape_table_from_url"; "run_duckdb_query"; "plot_and_encode_base64";
     "pd"; "np"; "plt" ]}.

(** How code run by [exec(code, globals, locals)] resolves a name: the
    locals, then the globals, then the module under
    [globals["__builtins__"]]. The names of that module, Python's
    [builtins], belong to the interpreter: they are the parameter
    [builtins_module]. *)
Definition load_name (builtins_module globals locals
                      : gmap string NamespaceObject)
    (name : string) : option NamespaceObject :=
  match locals !! name with
  | Some object => Some object
  | None =>
      match globals !! name with
      | Some object => Some object
      | None =>
          match globals !! "__builtins__" with
          | Some BuiltinsModule => builtins_module !! name
          | _ => None
          end
      end
  end.

(** *** [safe_exec]: the worker and the timeout *)

(** What [exec(code, allowed_globals, local_vars)] does on the worker: it
    ends after some time, by an exception or with the final [local_vars],
    or it never ends. Time is counted in seconds from the submission. *)
Inductive Execution : Type :=
| Finishes (duration : nat) (outcome : PyException + gmap string PyValue)
| RunsForever.

(** The meaning of a code string: what its execution does, given how the
    names it uses resolve. The code reaches its environment through this
    resolution and through nothing else. *)
Definition Program : Type := (string -> option NamespaceObject) -> Execution.

(** The meaning of a code that evaluates the name [name] and then binds
    [result = True]: a [NameError] when the name does not resolve. *)
Definition looks_up (name : string) : Program :=
  fun resolve =>
    match resolve name with
    | Some _ => Finishes 0 (inr {[ "result" := PyBool true ]})
    | None => Finishes 0 (inl (OtherException "NameError"))
    end.

(** [RAGConfig.EXECUTION_TIMEOUT], when the environment does not set it. *)
Definition EXECUTION_TIMEOUT : nat := 120.

(** [runner()]: [exec], then [local_vars.get('result', None)]. *)
Definition runner (outcome : PyException + gmap string PyValue)
  : PyException + PyValue :=
  match outcome with
  | inl e => inl e
  | inr locals => inr (default PyNone (locals !! "result"))
  end.

(** [future.result(timeout=timeout)]: the time at which the call ends, and
    how. *)
Definition future_result (run : Execution) (timeout : nat)
  : nat * (PyException + PyValue) :=
  match run with
  | Finishes duration outcome =>
      if (duration <=? timeout)%nat then (duration, runner outcome)
      else (timeout, inl TimeoutError)
  | RunsForever => (timeout, inl TimeoutError)
  end.

(** Leaving the [with ThreadPoolExecutor(...)] block calls
    [executor.shutdown(wait=True)], which joins the worker: the time at
    which it ends, [None] when it never does. *)
Definition shutdown_wait (run : Execution) (now : nat) : option nat :=
  match run with
  | Finishes duration _ => Some (Nat.max now duration)
  | RunsForever => None
  end.

(** [safe_exec(code, timeout)], [code] being given by its meaning. The
    code runs with the names resolved in [allowed_globals] and
    [local_vars]. The result is [None] when the call never returns;
    otherwise the time at which the call ends and how it ends: [inr] with
    the pair it returns, whose second component is the exception whose
    trace [traceback.format_exc()] prints, or [inl] with the exception it
    raises, [except Exception] catching only the exceptions that derive
    from [Exception]. *)
Definition safe_exec (builtins_module : gmap string NamespaceObject)
    (code : Program) (timeout : option nat)
  : option (nat * (PyException + PyValue * option PyException)) :=
  let run := code (load_name builtins_module allowed_globals local_vars) in
  let timeout := default EXECUTION_TIMEOUT timeout in
  let '(now, outcome) := future_result run timeout in
  let ended :=
    match outcome with
    | inr value => inr (value, None)
    | inl e => if is_exception e then inr (PyNone, Some e) else inl e
    end in
  (fun finished => (finished, ended)) <$> shutdown_wait run now.

(** *** [analyze]: the interaction that is recorded *)

(** The [Interaction] that [analyze] builds from what [safe_exec]
    returned: score [0.0] on an error, the scorer's value otherwise. *)
Definition analyze_interaction (now task code : string)
    (executed : PyValue * option PyException)
    (context : list string) : Interaction :=
  match executed with
  | (_, Some error) =>
      new_interaction now task code PyNone (Some 0%float) (Some context)
  | (result, None) =>
      new_interaction now task code result
        (Some (Scorer.calculate_success_score result None)) (Some context)
  end.

(** *** [submit_feedback] *)

Module FeedbackRequest.
Record t : Type := mk {
  interaction_id : string;
  feedback : string;
  success_score : option float
}.
End FeedbackRequest.

(** The body of a JSON response: [{"message": text}] or
    [{"error": prefix + str(cause)}]. *)
Inductive Content : Type :=
| Message (text : string)
| Error (prefix : string) (cause : PyException).

Record JSONResponse : Type := mkResponse {
  response_content : Content;
  status_code : Z
}.

(** [hasattr(interaction, 'interaction_id') and
     interaction.interaction_id == feedback_request.interaction_id] *)
Definition is_target (request : FeedbackRequest.t)
    (interaction : Interaction) : bool :=
  match attr_interaction_id interaction with
  | Some id => String.eqb id (FeedbackRequest.interaction_id request)
  | None => false
  end.

(** The two assignments made to the interaction that was found. *)
Definition record_feedback (request : FeedbackRequest.t)
    (interaction : Interaction) : Interaction :=
  mkInteraction
    (timestamp interaction) (user_query interaction)
    (generated_code interaction) (execution_result interaction)
    (Some (FeedbackRequest.feedback request))
    (match FeedbackRequest.success_score request with
     | Some score => Some score
     | None => success_score interaction
     end)
    (context_used interaction) (attr_interaction_id interaction).

(** The loop over the history: the first target is updated in place. *)
Fixpoint update_target (request : FeedbackRequest.t)
    (history : list Interaction) : option (list Interaction * Interaction) :=
  match history with
  | [] => None
  | interaction :: rest =>
      if is_target request interaction then
        let updated := record_feedback request interaction in
        Some (updated :: rest, updated)
      else
        match update_target request rest with
        | Some (rest', updated) => Some (interaction :: rest', updated)
        | None => None
        end
  end.

Section WithExternal.
Context `{External}.

(** The [try] block of [submit_feedback]: it returns a response or raises. *)
Definition submit_feedback_try (self : RAGAdaptiveSystem)
    (request : FeedbackRequest.t)
  : RAGAdaptiveSystem * (PyException + JSONResponse) :=
  match update_target request (interaction_history self) with
  | Some (history, interaction) =>
      let self :=
        mkRAG (context_collection self) (interaction_collection self)
              history in
      let self :=
        if is_successful (success_score interaction)
        then _learn_from_successful_interaction self interaction
        else self in
      (self, inr (mkResponse (Message "Feedback submitted successfully") 200))
  | None => (self, inl (HTTPException 404 "Interaction not found"))
  end.

(** [submit_feedback]: [except Exception] turns whatever the block raised
    into a response with status 500. *)
Definition submit_feedback (self : RAGAdaptiveSystem)
    (request : FeedbackRequest.t) : RAGAdaptiveSystem * JSONResponse :=
  match submit_feedback_try self request with
  | (self, inr response) => (self, response)
  | (self, inl e) =>
      (self, mkResponse (Error "Failed to submit feedback: " e) 500)
  end.


End WithExternal.

End Main.

(** ** In-memory collaborators

    A small instance of [External], used to run the system on concrete
    inputs: a text is embedded as its length, the store refuses an empty
    metadata dictionary and a [None] value, the index ranks exactly, by
    the gap between the embeddings, and the codec is a table from
    documents to the interactions they encode. *)

Module InMemory.
Import Chroma.

Definition gap (v w : nat) : Z := Z.abs (Z.of_nat v - Z.of_nat w).

Definition nearer (v : nat) (a b : Entry nat) : Prop :=
  (gap v (entry_embedding a) <= gap v (entry_embedding b))%Z.

#[global] Instance nearer_dec v a b : Decision (nearer v a b) :=
  Z_le_dec _ _.

Definition query (c : list (Entry nat)) (v : nat) (k : Z)
  : option (option (list (list string))) :=
  if (k <=? 0)%Z then None
  else Some (Some [entry_document
                     <$> take (Z.to_nat k) (merge_sort (nearer v) c)]).

(** The check that the store makes on a metadata dictionary: it must not
    be empty and none of its values may be [None]. *)
Definition validate_metadata (m : gmap string MetaValue) : bool :=
  match map_to_list m with
  | [] => false
  | pairs =>
      forallb (fun pair => match pair.2 with
                           | MetaNone => false
                           | _ => true
                           end) pairs
  end.

(** A context that the store takes: a text with one metadata entry. *)
Definition note (text : string) : Rag.ContextItem :=
  Rag.mkContext text (Some {[ "source" := MetaStr "user" ]}).

Definition external (policy : DuplicatePolicy)
    (archive : list (string * Interaction)) : External := {|
  Embedding := nat;
  encode text := Some (String.length text);
  accepts_metadata := validate_metadata;
  on_duplicate := policy;
  distance := gap;
  query_documents := query;
  dumps interaction := Some (user_query interaction);
  loads doc := (list_to_map archive : gmap string Interaction) !! doc
|}.

End InMemory.

(** ** The other endpoints of [main.py] *)

Module Endpoints.
Import Chroma Rag Main.

Module ContextRequest.
Record t : Type := mk {
  content : string;
  metadata : option (gmap string MetaValue)
}.
End ContextRequest.

(** The dictionary that [get_system_stats] returns. *)
Record SystemStats : Type := mkStats {
  total_interactions : nat;
  successful_interactions : nat;
  success_rate : float;
  average_success_score : float;
  context_count : nat;
  system_learning : bool
}.

(** The float of a length (exact below 2^53). *)
Definition float_of_nat (n : nat) : float :=
  of_uint63 (Uint63.of_Z (Z.of_nat n)).

(** [sum(values)] on floats: the additions start from zero. *)
Definition py_sum (values : list float) : float :=
  fold_left (fun total value => (total + value)%float) values 0%float.

(** The body of the response of [analyze]: the two failure dictionaries and
    the result dictionary. Every one of them also carries the interaction
    id, which is kept beside the body. *)
Inductive AnalyzeContent : Type :=
| AnalysisFailed (cause : PyException)
| ExecutionFailed (details : PyException) (code : string)
| AnalysisResult (result : PyValue) (code_generated : string)
                 (context : option (list string)) (score : float).

Record AnalyzeResponse : Type := mkAnalyzeResponse {
  analyze_content : AnalyzeContent;
  analyze_interaction_id : string;
  analyze_status : Z
}.

Section WithExternal.
Context `{External}.

(** [add_context]: the metadata default to the empty dictionary;
    [add_contexts] raises nothing, so the handler always reaches its
    [return]. *)
Definition add_context (self : RAGAdaptiveSystem)
    (request : ContextRequest.t) : RAGAdaptiveSystem * JSONResponse :=
  (add_contexts self
     [mkContext (ContextRequest.content request)
                (Some (default ∅ (ContextRequest.metadata request)))],
   mkResponse (Message "Context added successfully") 200).

(** [get_system_stats] *)
Definition get_system_stats (self : RAGAdaptiveSystem) : SystemStats :=
  let history := interaction_history self in
  let total := length history in
  let successful :=
    length (List.filter (fun i => is_successful (success_score i)) history) in
  let avg :=
    (py_sum (omap success_score history)
     / float_of_nat (Nat.max 1 total))%float in
  mkStats total successful
          (float_of_nat successful / float_of_nat (Nat.max 1 total))%float
          avg
          (count (context_collection self))
          true.

(** [analyze], from the task text on. The language model ([llm], given the
    prompt), the meaning of the generated code ([exec]), the interpreter's
    builtins and the JSON rendering of a result by the response class
    ([renderable]) are outside the program. The answer is [None] when
    [safe_exec] never returns. An exception that derives from [Exception],
    anywhere in the handler's [try], gives the response "Analysis failed"
    with status 500, and what was stored before it stays stored; any other
    exception leaves the handler ([inl]). *)
Definition analyze (llm : string -> PyException + string)
    (exec : string -> Program)
    (builtins_module : gmap string NamespaceObject)
    (renderable : PyValue -> bool)
    (self : RAGAdaptiveSystem) (now interaction_id task : string)
  : option (RAGAdaptiveSystem * (PyException + AnalyzeResponse)) :=
  match llm (get_adaptive_prompt self task) with
  | inl e =>
      if is_exception e then
        Some (self,
              inr (mkAnalyzeResponse (AnalysisFailed e) interaction_id 500))
      else Some (self, inl e)
  | inr code =>
      match safe_exec builtins_module (exec code) None with
      | None => None
      | Some (_, inl e) => Some (self, inl e)
      | Some (_, inr executed) =>
          let interaction :=
            analyze_interaction now task code executed
              (retrieve_relevant_context self task 3) in
          let self := add_interaction self interaction in
          match executed with
          | (_, Some error) =>
              Some (self,
                    inr (mkAnalyzeResponse (ExecutionFailed error code)
                                           interaction_id 500))
          | (result, None) =>
              if renderable result then
                Some (self,
                      inr (mkAnalyzeResponse
                             (AnalysisResult
                                result code (context_used interaction)
                                (Scorer.calculate_success_score result None))
                             interaction_id 200))
              else
                Some (self,
                      inr (mkAnalyzeResponse
                             (AnalysisFailed
                                (OtherException
                                   "result is not JSON serializable"))
                             interaction_id 500))
          end
      end
  end.

(** The operations that write to the context collection: the bootstrap, a
    call of [add_contexts] (by the endpoint or by anyone), the learning
    step, and [add_interaction], which may end in the learning step. *)
Inductive Insertion : Type :=
| Bootstrap
| AddContexts (items : list ContextItem)
| Learn (interaction : Interaction)
| AddInteraction (interaction : Interaction).

Definition perform (self : RAGAdaptiveSystem) (op : Insertion)
  : RAGAdaptiveSystem :=
  match op with
  | Bootstrap => _initialize_knowledge_base self
  | AddContexts items => add_contexts self items
  | Learn interaction => _learn_from_successful_interaction self interaction
  | AddInteraction interaction => add_interaction self interaction
  end.

(** Both collections hold pairwise distinct ids. *)
Definition ids_distinct (self : RAGAdaptiveSystem) : Prop :=
  NoDup (ids (context_collection self)) /\
  NoDup (ids (interaction_collection self)).

End WithExternal.

End Endpoints.

(** ** The configuration ([config.py], class [RAGConfig]) *)

Module Config.

(** The settings that [validate] and [get_llm_config] read. *)
Record RAGConfig : Type := mkConfig {
  LLM_PROVIDER : string;
  GOOGLE_API_KEY : string;
  OPENAI_API_KEY : string;
  CONTEXT_TOP_K : Z;
  SUCCESS_THRESHOLD : float;
  EXECUTION_TIMEOUT : Z;
  MAX_TOKENS : Z;
  TEMPERATURE : float
}.

(** [value in ["openai", "gemini"]] *)
Definition known_provider (provider : string) : bool :=
  String.eqb provider "openai" || String.eqb provider "gemini".

(** The list [errors] that [validate] collects, in order. *)
Definition validation_errors (cfg : RAGConfig) : list string :=
  (if known_provider (LLM_PROVIDER cfg) then []
   else ["Invalid LLM_PROVIDER: " +:+ LLM_PROVIDER cfg])
  ++ (if String.eqb (LLM_PROVIDER cfg) "openai"
         && negb (PyStr.truthy (OPENAI_API_KEY cfg))
      then ["OPENAI_API_KEY is required for OpenAI provider"]
      else if String.eqb (LLM_PROVIDER cfg) "gemini"
              && negb (PyStr.truthy (GOOGLE_API_KEY cfg))
      then ["GOOGLE_API_KEY is required for Gemini provider"]
      else [])
  ++ (if (CONTEXT_TOP_K cfg <? 1)%Z
      then ["CONTEXT_TOP_K must be >= 1"] else [])
  ++ (if (SUCCESS_THRESHOLD cfg <? 0)%float
         || (1 <? SUCCESS_THRESHOLD cfg)%float
      then ["SUCCESS_THRESHOLD must be between 0 and 1"] else [])
  ++ (if (EXECUTION_TIMEOUT cfg <? 10)%Z
      then ["EXECUTION_TIMEOUT must be >= 10 seconds"] else []).

(** [validate]: [False] when some error was collected. *)
Definition validate (cfg : RAGConfig) : bool :=
  match validation_errors cfg with
  | [] => true
  | _ :: _ => false
  end.

(** The dictionary that [get_llm_config] returns. *)
Record LLMConfig : Type := mkLLMConfig {
  model : string;
  temperature : float;
  max_tokens : Z
}.

(** [get_llm_config]; [inl] is the [ValueError] it raises. *)
Definition get_llm_config (cfg : RAGConfig) : string + LLMConfig :=
  if String.eqb (LLM_PROVIDER cfg) "openai" then
    inr (mkLLMConfig "gpt-4o" (TEMPERATURE cfg) (MAX_TOKENS cfg))
  else if String.eqb (LLM_PROVIDER cfg) "gemini" then
    inr (mkLLMConfig "gemini-1.5-pro" (TEMPERATURE cfg) (MAX_TOKENS cfg))
  else inl ("Unsupported LLM provider: " +:+ LLM_PROVIDER cfg).

(** [_check_api_keys] *)
Definition _check_api_keys (cfg : RAGConfig) : bool :=
  if String.eqb (LLM_PROVIDER cfg) "openai"
  then PyStr.truthy (OPENAI_API_KEY cfg)
  else if String.eqb (LLM_PROVIDER cfg) "gemini"
  then PyStr.truthy (GOOGLE_API_KEY cfg)
  else false.

End Config.

(** ** The table scraper ([utils.py], [scrape_table_from_url])

    The page is taken after parsing: the first table of the page, when
    there is one, as the list of its rows, each row being the list of its
    cells with their tag and their stripped text. *)

Module Utils.







End Utils.

(** ** Theorems *)

Module ScorerFacts.
Import PyStr Scorer.

Lemma lower_char_idem c : lower_char (lower_char c) = lower_char c.
Proof.
  destruct c as [[] [] [] [] [] [] [] []]; vm_compute; reflexivity.
Qed.

Lemma lower_idem s : lower (lower s) = lower s.
Proof.
  induction s as [|c s IH]; simpl; [reflexivity|].
  now rewrite lower_char_idem, IH.
Qed.

(** Lower-casing both sides and comparing exactly is comparing without
    regard to case. *)
Lemma startswith_lower w s :
  startswith (lower w) (lower s) = ci_startswith w s.
Proof.
  revert s; induction w as [|a w IH]; intros [|b s]; simpl; try reflexivity.
  now rewrite IH.
Qed.

Lemma contains_lower w s : contains (lower w) (lower s) = ci_contains w s.
Proof.
  induction s as [|b s IH]; cbn [ci_contains].
  - now rewrite <- startswith_lower.
  - now rewrite <- startswith_lower, <- IH.
Qed.

Lemma any_word_in_lower words text :
  Forall (fun w => lower w = w) words ->
  any_word_in words (lower text) = mentions words text.
Proof.
  unfold any_word_in, mentions.
  induction 1 as [|w words Hw _ IH]; simpl; [reflexivity|].
  rewrite <- IH. f_equal.
  rewrite <- Hw at 1. apply contains_lower.
Qed.

Lemma positive_words_lower : Forall (fun w => lower w = w) positive_words.
Proof. repeat constructor. Qed.

Lemma negative_words_lower : Forall (fun w => lower w = w) negative_words.
Proof. repeat constructor. Qed.

(** What the case-insensitive test decides: [text] splits around a middle
    part that is [w] up to the case of its letters. *)
Lemma lower_app s t : lower (s +:+ t) = lower s +:+ lower t.
Proof. induction s as [|c s IH]; simpl; [reflexivity|]. now rewrite IH. Qed.

Lemma ci_startswith_split w s :
  ci_startswith w s = true <->
  exists mid post, s = mid +:+ post /\ lower mid = lower w.
Proof.
  revert s; induction w as [|a w IH]; intros s; simpl.
  - split; [intros _; exists EmptyString, s; split; reflexivity|reflexivity].
  - destruct s as [|b s].
    + split; [discriminate|].
      intros (mid & post & Hs & Hl). destruct mid; simpl in *; discriminate.
    + unfold ci_eqb. rewrite andb_true_iff, IH. split.
      * intros [Hab (mid & post & -> & Hl)].
        exists (String b mid), post. split; [reflexivity|]. simpl.
        apply Ascii.eqb_eq in Hab. now rewrite Hl, Hab.
      * intros (mid & post & Hs & Hl).
        destruct mid as [|c mid]; simpl in *; [discriminate|].
        injection Hs as -> ->. injection Hl as Hc Hl. split.
        -- apply Ascii.eqb_eq. now rewrite Hc.
        -- now exists mid, post.
Qed.

Lemma ci_contains_split w s :
  ci_contains w s = true <->
  exists pre mid post, s = pre +:+ mid +:+ post /\ lower mid = lower w.
Proof.
  induction s as [|b s IH]; simpl.
  - rewrite orb_false_r, ci_startswith_split. split.
    + intros (mid & post & Hs & Hl). now exists EmptyString, mid, post.
    + intros (pre & mid & post & Hs & Hl).
      destruct pre; simpl in *; [|discriminate]. now exists mid, post.
  - rewrite orb_true_iff, IH, ci_startswith_split. split.
    + intros [(mid & post & Hs & Hl)|(pre & mid & post & Hs & Hl)].
      * now exists EmptyString, mid, post.
      * exists (String b pre), mid, post. split; [|exact Hl].
        simpl. now rewrite Hs.
    + intros (pre & mid & post & Hs & Hl).
      destruct pre as [|c pre]; simpl in *.
      * left. now exists mid, post.
      * right. injection Hs as -> ->. now exists pre, mid, post.
Qed.

(** The two structure tests agree. *)
Lemma structure_test_agrees result :
  isinstance_dict_list result && (0 <? len result)%nat
  = nonempty_mapping_or_sequence result.
Proof. destruct result as [| | | | | |[|? ?]|[|? ?]|]; reflexivity. Qed.

(** The feedback branch of the source, on the lower-cased text, is the
    case-insensitive branch of the reference; an empty text matches no
    keyword, so skipping it changes nothing. *)
Lemma feedback_branch_agrees (score : float) (feedback : string) :
  (if truthy feedback then
     if any_word_in positive_words (lower feedback) then (score + 0.3)%float
     else if any_word_in negative_words (lower feedback)
          then (score - 0.3)%float else score
   else score)
  = (if mentions positive_words feedback then (score + 0.3)%float
     else if mentions negative_words feedback then (score - 0.3)%float
     else score).
Proof.
  rewrite (any_word_in_lower _ _ positive_words_lower).
  rewrite (any_word_in_lower _ _ negative_words_lower).
  destruct feedback; reflexivity.
Qed.

Ltac split_score :=
  repeat match goal with
         | |- context [if ?b then _ else _] =>
             lazymatch b with
             | ltb _ _ => fail
             | _ => destruct b
             end
         end.

Lemma score_unfold result user_feedback :
  calculate_success_score result user_feedback =
  let score := 0.5%float in
  let score := if present result then (score + 0.3)%float else score in
  let score :=
    if nonempty_mapping_or_sequence result
    then (score + 0.2)%float else score in
  let score :=
    match user_feedback with
    | Some text =>
        if mentions positive_words text then (score + 0.3)%float
        else if mentions negative_words text then (score - 0.3)%float
        else score
    | None => score
    end in
  PyFloat.max 0 (PyFloat.min 1 score).
Proof.
  unfold calculate_success_score. cbv zeta.
  rewrite structure_test_agrees.
  destruct user_feedback as [feedback|]; [|reflexivity].
  now rewrite feedback_branch_agrees.
Qed.

(** C1. [calculate_success_score] is the reference heuristic of the
    specification (base 0.5, +0.3 for a present result, +0.2 for a
    non-empty dict or list, +0.3 / -0.3 for a positive / negative keyword
    found without regard to case, the positive test first, clamped to
    [0, 1]); its value always lies in [0, 1]; and it takes the six
    documented values. *)
Theorem calculate_success_score_is_reference :
  (forall result feedback,
      calculate_success_score result feedback
      = reference_score result feedback) /\
  (forall result feedback,
      (0 <=? calculate_success_score result feedback)%float = true /\
      (calculate_success_score result feedback <=? 1)%float = true) /\
  calculate_success_score PyNone None = 0.5%float /\
  calculate_success_score (PyInt 42) None = 0.8%float /\
  calculate_success_score (PyList [PyInt 1; PyInt 2; PyInt 3]) None
  = 1%float /\
  calculate_success_score (PyDict []) None = 0.8%float /\
  calculate_success_score (PyInt 42) (Some "This was great!") = 1%float /\
  calculate_success_score (PyInt 42) (Some "this failed badly") = 0.5%float.
Proof.
  split; [|split].
  - intros result feedback. rewrite score_unfold.
    unfold reference_score. cbv zeta.
    destruct feedback as [text|]; split_score; vm_compute; reflexivity.
  - intros result feedback. rewrite score_unfold. cbv zeta.
    destruct feedback as [text|]; split_score; vm_compute; split; reflexivity.
  - repeat split; vm_compute; reflexivity.
Qed.

(** Without feedback the score is one of three values. *)
Lemma score_without_feedback result :
  calculate_success_score result None =
  if present result
  then if nonempty_mapping_or_sequence result then 1%float else 0.8%float
  else 0.5%float.
Proof.
  rewrite score_unfold. cbv zeta.
  destruct result as [| | | | | |[|? ?]|[|? ?]|]; vm_compute; reflexivity.
Qed.

(** The test [score and score > 0.7] is the strict comparison with 0.7: a
    float above 0.7 is not zero. *)
Lemma is_successful_gt (s : float) :
  is_successful (Some s) = (0.7 <? s)%float.
Proof.
  unfold is_successful, PyFloat.truthy.
  destruct (0.7 <? s)%float eqn:Hgt; [|apply andb_false_r].
  rewrite andb_true_r. apply negb_true_iff.
  revert Hgt. rewrite FloatAxioms.ltb_spec, FloatAxioms.eqb_spec.
  destruct (Prim2SF s) as [sg|sg| |sg m e]; vm_compute; try congruence.
  all: destruct sg; vm_compute; congruence.
Qed.

End ScorerFacts.


Module MainFacts.
Import PyStr Scorer ScorerFacts Chroma Rag Main.

(** C10. Scoring a result without feedback gives 0.5, 0.8 or 1.0, so never
    less than the base 0.5; a score below 0.5 comes from the scorer only
    when the feedback holds a negative keyword (and no positive one); and
    [analyze] records the scorer's value for a successful execution, while
    the 0.0 of a failed execution is assigned directly. *)
Theorem scorer_alone_never_below_base :
  (forall result,
      calculate_success_score result None = 0.5%float \/
      calculate_success_score result None = 0.8%float \/
      calculate_success_score result None = 1%float) /\
  (forall result,
      (0.5 <=? calculate_success_score result None)%float = true) /\
  (forall result feedback,
      (calculate_success_score result feedback <? 0.5)%float = true ->
      exists text,
        feedback = Some text /\
        mentions negative_words text = true /\
        mentions positive_words text = false) /\
  (forall now task code result error context,
      success_score
        (analyze_interaction now task code (result, Some error) context)
      = Some 0%float) /\
  (forall now task code result context,
      success_score (analyze_interaction now task code (result, None) context)
      = Some (calculate_success_score result None)).
Proof.
  repeat split.
  - intros result. rewrite score_without_feedback.
    destruct (present result), (nonempty_mapping_or_sequence result); auto.
  - intros result. rewrite score_without_feedback.
    destruct (present result), (nonempty_mapping_or_sequence result);
      vm_compute; reflexivity.
  - intros result feedback. rewrite score_unfold. cbv zeta.
    destruct feedback as [text|].
    + destruct (mentions positive_words text) eqn:Hpos,
               (mentions negative_words text) eqn:Hneg,
               (present result), (nonempty_mapping_or_sequence result);
        intros Hlow; vm_compute in Hlow; try discriminate Hlow;
        exists text; auto.
    + destruct (present result), (nonempty_mapping_or_sequence result);
        intros Hlow; vm_compute in Hlow; discriminate Hlow.
Qed.

Lemma scorer_alone_never_below_base_witness :
  (calculate_success_score PyNone (Some "bad") <? 0.5)%float = true /\
  exists text,
    Some "bad" = Some text /\
    mentions negative_words text = true /\
    mentions positive_words text = false.
Proof.
  split; [vm_compute; reflexivity|].
  apply (proj1 (proj2 (proj2 scorer_alone_never_below_base))
           PyNone (Some "bad")).
  vm_compute; reflexivity.
Defined.

(** The names bound in [allowed_globals]. *)
Lemma allowed_globals_dom :
  dom allowed_globals = whitelist ∪ {["__builtins__"]}.
Proof.
  unfold allowed_globals, whitelist.
  rewrite !dom_insert_L, dom_singleton_L. set_solver.
Qed.

Lemma load_name_resolves builtins_module name :
  is_Some (load_name builtins_module allowed_globals local_vars name) <->
  name ∈ whitelist \/ name = "__builtins__" \/ name ∈ dom builtins_module.
Proof.
  unfold load_name, local_vars. rewrite lookup_empty.
  assert (Hdom : is_Some (allowed_globals !! name) <->
                 name ∈ whitelist \/ name = "__builtins__").
  { rewrite <- elem_of_dom, allowed_globals_dom. set_solver. }
  change (allowed_globals !! "__builtins__") with (Some BuiltinsModule).
  destruct (allowed_globals !! name) as [object|] eqn:Hg.
  - split; [intros _|eauto].
    destruct (proj1 Hdom) as [?|?]; eauto.
  - rewrite elem_of_dom. split; [tauto|].
    intros [Hw|[Hb|Hm]]; [| |exact Hm].
    + destruct (proj2 Hdom (or_introl Hw)) as [? ?]; discriminate.
    + destruct (proj2 Hdom (or_intror Hb)) as [? ?]; discriminate.
Qed.

(** What [safe_exec] answers for the code that looks a name up. *)
Lemma safe_exec_looks_up builtins_module name timeout :
  safe_exec builtins_module (looks_up name) timeout
  = Some (0,
          inr (match load_name builtins_module allowed_globals local_vars
                           name with
               | Some _ => (PyBool true, None)
               | None => (PyNone, Some (OtherException "NameError"))
               end)).
Proof.
  unfold safe_exec, looks_up.
  destruct (load_name _ _ _ name); reflexivity.
Qed.

(** C2, as stated, fails: with an interpreter whose builtins hold [open],
    the executed code resolves [open], which is not one of the three
    helpers or three library handles. *)
Lemma safe_exec_not_only_whitelist :
  ~ (forall builtins_module name timeout,
        safe_exec builtins_module (looks_up name) timeout
        = Some (0, inr (PyBool true, None)) ->
        name ∈ whitelist).
Proof.
  intros Hclaim.
  assert (Hopen : "open" ∈ whitelist).
  { apply (Hclaim {[ "open" := BuiltinFunction "open" ]} "open" None).
    vm_compute; reflexivity. }
  vm_compute in Hopen. discriminate Hopen.
Qed.

(** C2, amended. [safe_exec] runs the code with a globals dictionary of
    exactly seven bindings, the three helpers, the three library handles
    and [__builtins__], and with a locals dictionary that starts empty; the
    code meets its caller through the resolution of names in these two
    dictionaries alone, so no variable of the caller is in scope. A name
    resolves, and a code that uses it runs, exactly when it is one of the
    seven or a name of the interpreter's builtins module; every builtin
    that the globals do not shadow is handed to the code as it is, [open]
    and [__import__] with the others. *)
Theorem safe_exec_namespaces
    (builtins_module : gmap string NamespaceObject) :
  dom allowed_globals = whitelist ∪ {["__builtins__"]} /\
  local_vars = ∅ /\
  (forall (code code' : Program) timeout,
      code (load_name builtins_module allowed_globals local_vars)
      = code' (load_name builtins_module allowed_globals local_vars) ->
      safe_exec builtins_module code timeout
      = safe_exec builtins_module code' timeout) /\
  (forall name,
      is_Some (load_name builtins_module allowed_globals local_vars name) <->
      name ∈ whitelist \/ name = "__builtins__" \/
      name ∈ dom builtins_module) /\
  (forall name timeout,
      safe_exec builtins_module (looks_up name) timeout
      = Some (0, inr (PyBool true, None)) <->
      name ∈ whitelist \/ name = "__builtins__" \/
      name ∈ dom builtins_module) /\
  (forall name object,
      builtins_module !! name = Some object ->
      name ∉ dom allowed_globals ->
      load_name builtins_module allowed_globals local_vars name
      = Some object).
Proof.
  split; [exact allowed_globals_dom|].
  split; [reflexivity|].
  split; [intros code code' timeout Hsame; unfold safe_exec;
          now rewrite Hsame|].
  split; [apply load_name_resolves|].
  split.
  - intros name timeout. rewrite safe_exec_looks_up.
    rewrite <- load_name_resolves.
    destruct (load_name _ _ _ name); split;
      try discriminate; try reflexivity; eauto.
    intros [? ?]; discriminate.
  - intros name object Hbuiltin Hfree.
    apply not_elem_of_dom in Hfree.
    unfold load_name, local_vars. rewrite lookup_empty, Hfree.
    exact Hbuiltin.
Qed.

Lemma safe_exec_namespaces_witness :
  safe_exec {[ "open" := BuiltinFunction "open" ]} (looks_up "open") None
  = Some (0, inr (PyBool true, None)) /\
  load_name {[ "open" := BuiltinFunction "open" ]} allowed_globals local_vars
            "open"
  = Some (BuiltinFunction "open").
Proof.
  pose proof (safe_exec_namespaces {[ "open" := BuiltinFunction "open" ]})
    as (_ & _ & _ & _ & Hruns & Hhanded).
  split.
  - apply Hruns. right. right. apply elem_of_dom. vm_compute. eauto.
  - apply Hhanded; [vm_compute; reflexivity|].
    apply not_elem_of_dom. vm_compute; reflexivity.
Defined.

(** C3 fails on the code. A worker that never ends makes [safe_exec] never
    return, whatever the timeout; a worker that ends after the timeout
    makes it return the timeout failure only when the worker ends (here
    after 3600 seconds, for a timeout of 10). *)
Theorem safe_exec_waits_for_worker :
  (forall builtins_module (code : Program) timeout,
      code (load_name builtins_module allowed_globals local_vars)
      = RunsForever ->
      safe_exec builtins_module code timeout = None) /\
  (forall builtins_module timeout,
      safe_exec builtins_module (fun _ => RunsForever) timeout = None) /\
  (forall builtins_module,
      safe_exec builtins_module (fun _ => Finishes 3600 (inr ∅)) (Some 10)
      = Some (3600, inr (PyNone, Some TimeoutError))).
Proof.
  split; [|split].
  - intros builtins_module code timeout Hrun. unfold safe_exec.
    now rewrite Hrun.
  - reflexivity.
  - reflexivity.
Qed.

Lemma safe_exec_waits_for_worker_witness :
  safe_exec ∅ (fun resolve => match resolve "pd" with
                              | Some _ => RunsForever
                              | None => Finishes 0 (inr ∅)
                              end) (Some 1)
  = None.
Proof.
  apply (proj1 safe_exec_waits_for_worker). vm_compute; reflexivity.
Defined.

End MainFacts.

Module RagFacts.
Import PyStr Scorer ScorerFacts Chroma Rag Main.

Ltac decide_by_computation :=
  apply (bool_decide_unpack _); vm_compute; exact I.

Section WithExternal.
Context `{External}.

(** [collection.add] appends a record that is accepted and whose id is
    new. *)
Lemma add_fresh (c : list (Entry Embedding)) (e : Entry Embedding) :
  accepts_metadata (entry_metadata e) = true ->
  entry_id e ∉ ids c ->
  add accepts_metadata on_duplicate c e = Some (c ++ [e]).
Proof.
  unfold add. intros -> Hnew. now rewrite bool_decide_eq_false_2.
Qed.

(** Whatever it does, [collection.add] never adds under an id that is
    taken. *)
Lemma add_taken (c c' : list (Entry Embedding)) (e : Entry Embedding) :
  entry_id e ∈ ids c ->
  add accepts_metadata on_duplicate c e = Some c' -> c' = c.
Proof.
  unfold add. intros Htaken.
  rewrite (bool_decide_eq_true_2 _ Htaken).
  destruct (accepts_metadata _), on_duplicate; congruence.
Qed.

(** One turn of the loop of [add_contexts] that succeeds. *)
Lemma add_contexts_from_cons i item rest (c : list (Entry Embedding)) v :
  encode (content item) = Some v ->
  accepts_metadata (default ∅ (metadata item)) = true ->
  "context_" +:+ pretty (length (ids c) + i) ∉ ids c ->
  add_contexts_from i (item :: rest) c =
  add_contexts_from (S i) rest
    (c ++ [mkEntry ("context_" +:+ pretty (length (ids c) + i)) v
                   (content item) (default ∅ (metadata item))]).
Proof.
  intros Hv Hok Hnew. cbn [add_contexts_from]. rewrite Hv. cbv zeta.
  now rewrite add_fresh.
Qed.

(** The loop only appends. *)
Lemma add_contexts_from_extends contexts :
  forall i (c : list (Entry Embedding)),
    exists added, add_contexts_from i contexts c = c ++ added.
Proof.
  induction contexts as [|item rest IH]; intros i c; cbn [add_contexts_from].
  - exists []. now rewrite app_nil_r.
  - destruct (encode (content item)) as [v|]; [|exists []; now rewrite app_nil_r].
    cbv zeta. unfold add.
    destruct (accepts_metadata _); [|exists []; now rewrite app_nil_r].
    destruct (bool_decide _).
    + destruct on_duplicate; [apply IH|exists []; now rewrite app_nil_r].
    + destruct (IH (S i) (c ++ [mkEntry
          ("context_" +:+ pretty (length (ids c) + i)) v (content item)
          (default ∅ (metadata item))])) as [added ->].
      eexists. now rewrite <- app_assoc.
Qed.

(** C9. On an empty context collection (with an embedder and a store that
    take the five default entries) the bootstrap inserts exactly the five
    default entries, in order; on a non-empty collection it changes
    nothing; so a second bootstrap never adds to what the first one
    left. *)
Theorem bootstrap_seeds_once (self : RAGAdaptiveSystem) :
  (count (context_collection self) = 0 ->
   Forall (fun item =>
             is_Some (encode (content item)) /\
             accepts_metadata (default ∅ (metadata item)) = true)
          default_contexts ->
   let seeded := context_collection (_initialize_knowledge_base self) in
   count seeded = 5 /\
   entry_document <$> seeded = content <$> default_contexts /\
   entry_metadata <$> seeded
   = (fun item => default ∅ (metadata item)) <$> default_contexts /\
   Forall (fun e => encode (entry_document e) = Some (entry_embedding e))
          seeded /\
   ids seeded
   = ["context_0"; "context_2"; "context_4"; "context_6"; "context_8"]) /\
  (0 < count (context_collection self) ->
   _initialize_knowledge_base self = self) /\
  _initialize_knowledge_base (_initialize_knowledge_base self)
  = _initialize_knowledge_base self.
Proof.
  destruct self as [ctx ic history].
  unfold _initialize_knowledge_base, add_contexts, count.
  cbn [context_collection interaction_collection interaction_history].
  split; [|split].
  - intros Hempty Hall. apply length_zero_iff_nil in Hempty as ->.
    cbn [length Nat.eqb context_collection]. unfold default_contexts in *.
    repeat match type of Hall with
           | Forall _ (_ :: _) => apply Forall_cons in Hall as [[[? ?] ?] Hall]
           end.
    repeat (erewrite add_contexts_from_cons;
            [|eassumption|eassumption|decide_by_computation]).
    cbn [add_contexts_from app].
    repeat split; try (vm_compute; reflexivity).
    repeat constructor; assumption.
  - intros Hpos. destruct ctx; [cbn in Hpos; lia|reflexivity].
  - destruct ctx as [|e ctx]; [|reflexivity].
    cbn [length Nat.eqb context_collection interaction_collection
         interaction_history].
    destruct (add_contexts_from 0 default_contexts []) as [|e seeded] eqn:Hrun;
      cbn [length Nat.eqb context_collection interaction_collection
           interaction_history]; [|reflexivity].
    now rewrite Hrun.
Qed.

(** The store keeps the ids of a collection distinct: a record whose id is
    taken is never stored. *)
Lemma add_keeps_ids_unique (c c' : list (Entry Embedding)) e :
  NoDup (ids c) ->
  add accepts_metadata on_duplicate c e = Some c' -> NoDup (ids c').
Proof.
  unfold add. intros Hc.
  destruct (accepts_metadata _); [|discriminate].
  destruct (bool_decide _) eqn:Hin.
  - destruct on_duplicate; congruence.
  - apply bool_decide_eq_false in Hin. intros [= <-].
    unfold ids in *. rewrite fmap_app. apply NoDup_app.
    repeat split; [assumption| |apply NoDup_singleton].
    intros x Hx Hx'. apply list_elem_of_singleton in Hx'. now subst x.
Qed.

Lemma add_contexts_keeps_ids_unique contexts :
  forall i (c : list (Entry Embedding)),
    NoDup (ids c) -> NoDup (ids (add_contexts_from i contexts c)).
Proof.
  induction contexts as [|item rest IH]; intros i c Hc;
    cbn [add_contexts_from]; [assumption|].
  destruct (encode (content item)) as [v|]; [|assumption]. cbv zeta.
  destruct (add _ _ _ _) as [c'|] eqn:Hadd; [|assumption].
  apply IH. eapply add_keeps_ids_unique; eassumption.
Qed.

(** C4, amended. An interaction that is stored with a score above 0.7 and
    a non-empty generated code makes [add_interaction] insert one new
    context entry, whenever the embedder and the store take that entry and
    its id is free: the content is the template around the query and the
    whole code, the metadata are the type, the score and the query. With a
    score that is absent or not above 0.7, or with an empty code, the
    context collection is left as it was. *)
Theorem add_interaction_learns (self : RAGAdaptiveSystem)
    (interaction : Interaction) :
  (forall score v document stored pattern_embedding,
      success_score interaction = Some score ->
      (0.7 <? score)%float = true ->
      generated_code interaction <> "" ->
      encode (user_query interaction) = Some v ->
      dumps interaction = Some document ->
      add accepts_metadata on_duplicate (interaction_collection self)
          (mkEntry ("interaction_"
                    +:+ pretty (length (interaction_collection self)))
                   v document (interaction_metadata interaction))
      = Some stored ->
      encode (learned_content interaction) = Some pattern_embedding ->
      accepts_metadata (learned_metadata interaction) = true ->
      "context_" +:+ pretty (length (context_collection self))
        ∉ ids (context_collection self) ->
      context_collection (add_interaction self interaction)
      = context_collection self ++
        [mkEntry
           ("context_" +:+ pretty (length (context_collection self)))
           pattern_embedding
           ("Successful code pattern for: " +:+ user_query interaction
            +:+ nl +:+ "Code: " +:+ generated_code interaction)
           {[ "type" := MetaStr "learned_pattern";
              "success_score" := MetaFloat score;
              "original_query" := MetaStr (user_query interaction) ]}]) /\
  (match success_score interaction with
   | Some score => (0.7 <? score)%float = false
   | None => True
   end \/ generated_code interaction = "" ->
   context_collection (add_interaction self interaction)
   = context_collection self).
Proof.
  split.
  - intros score v document stored pv Hscore Hgt Hcode Hv Hdoc Hstored
           Hpv Hok Hnew.
    unfold add_interaction. rewrite Hv, Hdoc. cbv zeta.
    unfold ids at 1. rewrite length_fmap, Hstored.
    rewrite Hscore, is_successful_gt, Hgt.
    unfold _learn_from_successful_interaction.
    destruct (generated_code interaction) as [|ch code] eqn:Hgen;
      [congruence|]. cbn [truthy].
    unfold add_contexts. cbn [context_collection].
    assert (Hlen : length (ids (context_collection self)) + 0
                   = length (context_collection self)).
    { unfold ids. rewrite length_fmap. lia. }
    erewrite add_contexts_from_cons; cbn [learned_context content metadata];
      [|exact Hpv|exact Hok|now rewrite Hlen].
    cbn [add_contexts_from default]. rewrite Hlen.
    unfold learned_content, learned_metadata. now rewrite Hscore, Hgen.
  - intros Hskip. unfold add_interaction.
    destruct (encode (user_query interaction)); [|reflexivity].
    destruct (dumps interaction); [|reflexivity]. cbv zeta.
    destruct (add _ _ _ _); [|reflexivity].
    unfold _learn_from_successful_interaction.
    destruct Hskip as [Hlow|Hcode].
    + destruct (success_score interaction) as [score|]; [|reflexivity].
      now rewrite is_successful_gt, Hlow.
    + rewrite Hcode. cbn [truthy]. now destruct (is_successful _).
Qed.

(** [s[:n]] is the first [n] characters of [s], or all of [s] when it is
    shorter. *)
Lemma slice_to_prefix n : forall s,
  String.length (slice_to n s) = Nat.min n (String.length s) /\
  exists rest, s = slice_to n s +:+ rest.
Proof.
  induction n as [|n IH]; intros s; cbn [slice_to].
  - split; [reflexivity|now exists s].
  - destruct s as [|c s]; [split; [reflexivity|now exists EmptyString]|].
    destruct (IH s) as [Hlen [rest Hrest]]. split.
    + cbn [String.length Nat.min]. now rewrite Hlen.
    + exists rest. change (String c s = String c (slice_to n s +:+ rest)).
      now f_equal.
Qed.

(** The two loops of [get_adaptive_prompt], in closed form. *)
Lemma fold_append_context relevant : forall parts,
  fold_left append_context relevant parts
  = parts ++ ((fun context => "- " +:+ context) <$> relevant).
Proof.
  induction relevant as [|context relevant IH]; intros parts; cbn.
  - now rewrite app_nil_r.
  - rewrite IH. unfold append_context. now rewrite <- app_assoc.
Qed.

Lemma fold_append_pattern similar : forall parts,
  fold_left append_pattern similar parts
  = parts ++ flat_map pattern_lines
               (List.filter (fun i => is_successful (success_score i))
                            similar).
Proof.
  induction similar as [|i similar IH]; intros parts; cbn [fold_left].
  - cbn. now rewrite app_nil_r.
  - rewrite IH. unfold append_pattern. cbn [List.filter].
    destruct (is_successful (success_score i)); [|reflexivity].
    cbn [flat_map]. now rewrite <- !app_assoc.
Qed.

Lemma prompt_parts_layout query relevant similar :
  prompt_parts query relevant similar
  = prompt_head ++ ((fun context => "- " +:+ context) <$> relevant)
    ++ match similar with
       | [] => []
       | _ :: _ =>
           patterns_header
           :: flat_map pattern_lines
                (List.filter (fun i => is_successful (success_score i))
                             similar)
       end
    ++ prompt_tail query.
Proof.
  unfold prompt_parts. cbv zeta. rewrite fold_append_context.
  destruct similar as [|i similar].
  - now rewrite <- app_assoc.
  - rewrite fold_append_pattern. now rewrite <- !app_assoc.
Qed.

(** No other line of the prompt is the header of the patterns section:
    the header starts with a line feed. *)
Lemma header_not_a_bullet (relevant : list string) :
  patterns_header ∉ (fun context => "- " +:+ context) <$> relevant.
Proof.
  intros Hin. apply list_elem_of_fmap in Hin as [context [Heq _]].
  discriminate Heq.
Qed.

Lemma header_not_a_pattern_line (interactions : list Interaction) :
  patterns_header ∉ flat_map pattern_lines interactions.
Proof.
  intros Hin. apply list_elem_of_In, in_flat_map in Hin as [i [_ Hin]].
  destruct Hin as [Heq|[Heq|[]]]; discriminate Heq.
Qed.

Lemma header_not_fixed query :
  (patterns_header ∉ prompt_head) /\ (patterns_header ∉ prompt_tail query).
Proof.
  split; intros Hin; apply list_elem_of_In in Hin; cbn in Hin;
    repeat destruct Hin as [Hin|Hin]; try discriminate Hin; exact Hin.
Qed.

(** C5, amended. The prompt is the fixed head, one bullet per retrieved
    context, then, when at least one similar interaction was retrieved, the
    header of the patterns section followed by two lines (the query, and
    the first 200 characters of the code) for each retrieved interaction
    whose score is above 0.7, in retrieval order, then the task and the
    fixed instructions. The header is there exactly when some interaction
    was retrieved, whatever the scores. *)
Theorem adaptive_prompt_layout (self : RAGAdaptiveSystem) (query : string) :
  let relevant := retrieve_relevant_context self query 3 in
  let similar := get_similar_interactions self query 2 in
  let successful :=
    List.filter (fun i => is_successful (success_score i)) similar in
  get_adaptive_prompt self query
  = join nl
      (prompt_head
       ++ ((fun context => "- " +:+ context) <$> relevant)
       ++ match similar with
          | [] => []
          | _ :: _ =>
              patterns_header
              :: flat_map
                   (fun i =>
                      ["- Query: " +:+ user_query i;
                       "- Successful code: "
                       +:+ slice_to 200 (generated_code i) +:+ "..."])
                   successful
          end
       ++ prompt_tail query) /\
  (patterns_header ∈ prompt_parts query relevant similar <-> similar <> []) /\
  (forall i,
      i ∈ successful <->
      i ∈ similar /\
      exists score,
        success_score i = Some score /\ (0.7 <? score)%float = true).
Proof.
  intros relevant similar successful. split; [|split].
  - unfold get_adaptive_prompt. cbv zeta.
    now rewrite prompt_parts_layout.
  - rewrite prompt_parts_layout, !elem_of_app.
    pose proof (header_not_a_bullet relevant) as Hbullet.
    pose proof (header_not_fixed query) as [Hhead Htail].
    destruct similar as [|i rest].
    + split; [|congruence]. rewrite elem_of_nil. tauto.
    + split; [congruence|]. intros _. right. right. left. left.
  - intros i. unfold successful.
    rewrite !list_elem_of_In, filter_In. apply and_iff_compat_l.
    destruct (success_score i) as [score|].
    + rewrite is_successful_gt. split; [eauto|].
      now intros (score' & [= <-] & Hgt).
    + cbn. split; [discriminate|]. now intros (score & Hnone & _).
Qed.

(** C8. [retrieve_relevant_context] returns the first list of documents
    that the index answers, as it is: the documents of at most [top_k]
    entries of the context collection, nearest to the query first; it
    returns the empty list when the embedder fails, when the index fails,
    and on an empty collection. Being a total function into lists, it
    never raises. *)
Theorem retrieve_relevant_context_degrades
    (index_ok : index_contract)
    (self : RAGAdaptiveSystem) (query : string) (top_k : Z) :
  (forall v docs rest,
      encode query = Some v ->
      query_documents (context_collection self) v top_k
      = Some (Some (docs :: rest)) ->
      retrieve_relevant_context self query top_k = docs /\
      exists hits : list (Entry Embedding),
        docs = entry_document <$> hits /\
        hits ⊆+ context_collection self /\
        (Z.of_nat (length hits) <= Z.max 0 top_k)%Z /\
        Sorted (fun a b => (distance v (entry_embedding a)
                            <= distance v (entry_embedding b))%Z) hits) /\
  (exists hits : list (Entry Embedding),
      retrieve_relevant_context self query top_k
      = entry_document <$> hits /\
      hits ⊆+ context_collection self /\
      (Z.of_nat (length hits) <= Z.max 0 top_k)%Z /\
      forall v, encode query = Some v ->
        Sorted (fun a b => (distance v (entry_embedding a)
                            <= distance v (entry_embedding b))%Z) hits) /\
  (encode query = None -> retrieve_relevant_context self query top_k = []) /\
  (forall v, encode query = Some v ->
      query_documents (context_collection self) v top_k = None ->
      retrieve_relevant_context self query top_k = []) /\
  (context_collection self = [] ->
   retrieve_relevant_context self query top_k = []).
Proof.
  assert (Hnone : exists hits : list (Entry Embedding),
             [] = entry_document <$> hits /\
             hits ⊆+ context_collection self /\
             (Z.of_nat (length hits) <= Z.max 0 top_k)%Z /\
             forall v, encode query = Some v ->
               Sorted (fun a b => (distance v (entry_embedding a)
                                   <= distance v (entry_embedding b))%Z) hits).
  { exists []. repeat split; [apply submseteq_nil_l|cbn; lia|constructor]. }
  unfold retrieve_relevant_context. split; [|repeat split].
  - intros v docs rest Hv Hq. rewrite Hv, Hq. split; [reflexivity|].
    exact (index_ok _ _ _ _ _ Hq).
  - destruct (encode query) as [v|]; [|exact Hnone].
    destruct (query_documents _ v top_k) as [[[|docs rest]|]|] eqn:Hq;
      try exact Hnone.
    destruct (index_ok _ _ _ _ _ Hq) as (hits & Hdocs & Hsub & Hlen & Hsort).
    exists hits. repeat split; try assumption.
    now intros v' [= <-].
  - now intros ->.
  - now intros v -> ->.
  - intros Hempty. destruct (encode query) as [v|]; [|reflexivity].
    destruct (query_documents _ v top_k) as [[[|docs rest]|]|] eqn:Hq;
      try reflexivity.
    destruct (index_ok _ _ _ _ _ Hq) as (hits & -> & Hsub & _).
    rewrite Hempty in Hsub. apply submseteq_nil_r in Hsub. now subst hits.
Qed.

End WithExternal.

(** C9 at work: the bootstrap of an empty in-memory system. *)
Lemma bootstrap_seeds_once_witness :
  ids (@context_collection (InMemory.external DuplicateIgnored [])
         (_initialize_knowledge_base (mkRAG [] [] [])))
  = ["context_0"; "context_2"; "context_4"; "context_6"; "context_8"].
Proof.
  apply (proj1 (@bootstrap_seeds_once
                  (InMemory.external DuplicateIgnored []) (mkRAG [] [] []))).
  - reflexivity.
  - repeat constructor; vm_compute; eauto.
Defined.

(** One operation on the context collection keeps its ids distinct: the
    store never takes a record under an id that it holds. *)
Lemma perform_keeps_ids_unique `{External} (self : RAGAdaptiveSystem)
    (op : Endpoints.Insertion) :
  NoDup (ids (context_collection self)) ->
  NoDup (ids (context_collection (Endpoints.perform self op))).
Proof.
  intros Hself.
  assert (Hadd : forall (s : RAGAdaptiveSystem) items,
             NoDup (ids (context_collection s)) ->
             NoDup (ids (context_collection (add_contexts s items))))
    by (intros s items Hs; now apply add_contexts_keeps_ids_unique).
  assert (Hlearn : forall (s : RAGAdaptiveSystem) i,
             NoDup (ids (context_collection s)) ->
             NoDup (ids (context_collection
                           (_learn_from_successful_interaction s i)))).
  { intros s i Hs. unfold _learn_from_successful_interaction.
    destruct (truthy _); [now apply Hadd|exact Hs]. }
  destruct op as [|items|interaction|interaction]; cbn [Endpoints.perform].
  - unfold _initialize_knowledge_base.
    destruct (count _ =? 0); [now apply Hadd|exact Hself].
  - now apply Hadd.
  - now apply Hlearn.
  - unfold add_interaction.
    destruct (encode (user_query interaction)); [|exact Hself].
    destruct (dumps interaction); [|exact Hself]. cbv zeta.
    destruct (add _ _ _ _); [|exact Hself].
    destruct (is_successful _); [now apply Hlearn|exact Hself].
Qed.

(** C6. Whatever the embedder, the store and the codec, after any sequence
    of insertions into the context collection, the bootstrap, calls of
    [add_contexts] with batches of any size, learned patterns and stored
    interactions, in any order, from the empty system on, no two entries
    of the context collection have the same id. *)
Theorem context_ids_unique `{External}
    (insertions : list Endpoints.Insertion) :
  NoDup (ids (context_collection
                (fold_left Endpoints.perform insertions (mkRAG [] [] [])))).
Proof.
  assert (Hfrom : forall self : RAGAdaptiveSystem,
             NoDup (ids (context_collection self)) ->
             NoDup (ids (context_collection
                           (fold_left Endpoints.perform insertions self)))).
  { induction insertions as [|op rest IH]; intros self Hself;
      cbn [fold_left]; [exact Hself|].
    apply IH. now apply perform_keeps_ids_unique. }
  apply Hfrom. constructor.
Qed.

(** How the ids are kept distinct: after the bootstrap the ids are 0, 2,
    4, 6, 8; the next context gets [context_5]; the one after is given
    [context_6], the id of the fourth default entry, and, whether the store
    drops or refuses duplicates, it is not inserted. *)
Lemma context_ids_collide (policy : DuplicatePolicy) :
  let seeded :=
    @_initialize_knowledge_base (InMemory.external policy [])
      (mkRAG [] [] []) in
  let first :=
    add_contexts seeded
      [InMemory.note "first note"] in
  let second :=
    add_contexts first
      [InMemory.note "second note"] in
  ids (context_collection seeded)
  = ["context_0"; "context_2"; "context_4"; "context_6"; "context_8"] /\
  ids (context_collection first)
  = ["context_0"; "context_2"; "context_4"; "context_6"; "context_8";
     "context_5"] /\
  "context_" +:+ pretty (length (ids (context_collection first)) + 0)
  = "context_6" /\
  entry_document <$> context_collection first !! 3
  = Some "Pandas data manipulation and analysis techniques" /\
  context_collection second = context_collection first.
Proof. destruct policy; vm_compute; repeat split; reflexivity. Qed.

(** C4, as stated, fails: an interaction with score 0.9 and an empty
    generated code is stored, and no context entry is inserted. *)
Lemma learning_skips_empty_code :
  let self := @mkRAG (InMemory.external DuplicateIgnored []) [] [] [] in
  let interaction :=
    mkInteraction "2024-01-01T00:00:00" "count the rows" "" PyNone
                  (Some "nothing to run") (Some 0.9%float) None None in
  (0.7 <? 0.9)%float = true /\
  interaction_history (add_interaction self interaction) = [interaction] /\
  ids (interaction_collection (add_interaction self interaction))
  = ["interaction_0"] /\
  context_collection (add_interaction self interaction) = [].
Proof. vm_compute. repeat split; reflexivity. Qed.

(** C4, amended, at work: a scored interaction with code, on an empty
    in-memory system. *)
Lemma add_interaction_learns_witness :
  let interaction :=
    mkInteraction "2024-01-01T00:00:00" "count the rows"
                  "result = len(rows)" (PyInt 3) (Some "as expected")
                  (Some 0.8%float) None None in
  ids (@context_collection (InMemory.external DuplicateIgnored [])
         (add_interaction (mkRAG [] [] []) interaction))
  = ["context_0"].
Proof.
  intros interaction.
  rewrite (proj1 (@add_interaction_learns
                    (InMemory.external DuplicateIgnored [])
                    (mkRAG [] [] []) interaction)
             0.8%float 14 "count the rows"
             [mkEntry "interaction_0" 14 "count the rows"
                      (interaction_metadata interaction)]
             68).
  all: first [ vm_compute; reflexivity
             | vm_compute; discriminate
             | decide_by_computation ].
Defined.

(** The in-memory index keeps the contract of an index. *)
Lemma Sorted_take {A} (R : relation A) (l : list A) :
  Sorted R l -> forall n, Sorted R (take n l).
Proof.
  induction 1 as [|a l Hsorted IH Hhd]; intros [|n]; cbn [take];
    try constructor.
  - apply IH.
  - destruct Hhd as [|b l Hab]; destruct n; constructor. exact Hab.
Qed.

#[local] Instance nearer_total v : Total (InMemory.nearer v).
Proof. intros a b. unfold InMemory.nearer. lia. Qed.

Lemma in_memory_index_contract policy archive :
  @index_contract (InMemory.external policy archive).
Proof.
  intros c v k docs rest. cbn [query_documents InMemory.external].
  unfold InMemory.query. destruct (k <=? 0)%Z eqn:Hk; [discriminate|].
  intros [= <- <-]. apply Z.leb_gt in Hk.
  exists (take (Z.to_nat k) (merge_sort (InMemory.nearer v) c)).
  repeat split.
  - etransitivity; [apply sublist_submseteq, sublist_take|].
    apply Permutation_submseteq, merge_sort_Permutation.
  - rewrite length_take. lia.
  - apply Sorted_take, Sorted_merge_sort. apply _.
Qed.

(** C8 at work: on the seeded in-memory store the two nearest default
    entries come back in the order of the index. *)
Lemma retrieve_relevant_context_degrades_witness :
  @retrieve_relevant_context (InMemory.external DuplicateIgnored [])
    (_initialize_knowledge_base (mkRAG [] [] []))
    "SQL queries using DuckDB with run_duckdb_query() function" 2
  = ["SQL queries using DuckDB with run_duckdb_query() function";
     "Creating visualizations with matplotlib and encoding as base64"].
Proof.
  apply (proj1 (@retrieve_relevant_context_degrades
                  (InMemory.external DuplicateIgnored [])
                  (in_memory_index_contract DuplicateIgnored [])
                  (_initialize_knowledge_base (mkRAG [] [] []))
                  "SQL queries using DuckDB with run_duckdb_query() function"
                  2)
           57 _ []);
    vm_compute; reflexivity.
Defined.

(** C5, as stated, fails: the only similar interaction that is retrieved
    has score 0.5, and the prompt still carries the header of the patterns
    section. *)
Lemma patterns_header_without_success :
  let low :=
    mkInteraction "2024-01-01T00:00:00" "total sales" "result = 1"
                  (PyInt 1) (Some "not what I asked") (Some 0.5%float)
                  None None in
  let self :=
    @add_interaction (InMemory.external DuplicateIgnored
                        [("total sales", low)])
      (mkRAG [] [] []) low in
  ids (interaction_collection self) = ["interaction_0"] /\
  get_similar_interactions self "total sales" 2 = [low] /\
  is_successful (success_score low) = false /\
  patterns_header ∈
    prompt_parts "total sales"
      (retrieve_relevant_context self "total sales" 3)
      (get_similar_interactions self "total sales" 2) /\
  contains "Similar successful patterns:"
           (get_adaptive_prompt self "total sales") = true.
Proof.
  intros low self.
  assert (Hsim : get_similar_interactions self "total sales" 2 = [low])
    by (vm_compute; reflexivity).
  split; [vm_compute; reflexivity|].
  split; [exact Hsim|]. split; [vm_compute; reflexivity|]. split.
  - rewrite Hsim, prompt_parts_layout, !elem_of_app.
    right. right. left. left.
  - vm_compute. reflexivity.
Qed.

(** The system at work on the in-memory collaborators: retrieval ranks the
    seeded entries, a [top_k] that the index refuses gives the empty list,
    and with no stored interaction the prompt has no patterns section. *)
Example retrieve_on_seeded_store :
  let seeded :=
    @_initialize_knowledge_base (InMemory.external DuplicateIgnored [])
      (mkRAG [] [] []) in
  retrieve_relevant_context seeded
    "SQL queries using DuckDB with run_duckdb_query() function" 2
  = ["SQL queries using DuckDB with run_duckdb_query() function";
     "Creating visualizations with matplotlib and encoding as base64"] /\
  retrieve_relevant_context seeded
    "SQL queries using DuckDB with run_duckdb_query() function" 0 = [] /\
  contains "Similar successful patterns:" (get_adaptive_prompt seeded "sum")
  = false.
Proof. vm_compute. repeat split; reflexivity. Qed.

End RagFacts.

Module FeedbackFacts.
Import Chroma Rag Main.

Section WithExternal.
Context `{External}.

(** An interaction without the attribute [interaction_id] is no target. *)
Lemma update_target_no_attribute request history :
  Forall (fun i => attr_interaction_id i = None) history ->
  update_target request history = None.
Proof.
  induction 1 as [|i history Hi _ IH]; cbn [update_target]; [reflexivity|].
  unfold is_target. now rewrite Hi, IH.
Qed.

(** When an interaction does carry the attribute, the feedback is recorded
    on it and the response is the success message. *)
Lemma submit_feedback_on_target self request history updated :
  update_target request (interaction_history self)
  = Some (history, updated) ->
  user_feedback updated = Some (FeedbackRequest.feedback request) /\
  (submit_feedback self request).2
  = mkResponse (Message "Feedback submitted successfully") 200.
Proof.
  intros Hfound. split.
  - revert history Hfound.
    induction (interaction_history self) as [|i rest IH]; intros history;
      cbn [update_target]; [discriminate|].
    destruct (is_target request i); [now intros [= _ <-]|].
    destruct (update_target request rest) as [[rest' updated']|];
      [|discriminate].
    intros [= _ <-]. now eapply IH.
  - unfold submit_feedback, submit_feedback_try. now rewrite Hfound.
Qed.

(** C7 fails on the code. No response of [submit_feedback] has status 404;
    and on a history built by the constructor of [Interaction], which sets
    no attribute [interaction_id], every request is answered by the
    generic failure with status 500 that wraps the exception raised for
    "not found", the system being left as it was. *)
Theorem submit_feedback_never_not_found :
  (forall self request,
      status_code (submit_feedback self request).2 <> 404%Z) /\
  (forall contexts interactions request
          (records : list (string * string * string * PyValue
                           * option float * option (list string))),
      let history :=
        (fun '(now, query, code, result, score, context) =>
           new_interaction now query code result score context)
          <$> records in
      submit_feedback (mkRAG contexts interactions history) request
      = (mkRAG contexts interactions history,
         mkResponse
           (Error "Failed to submit feedback: "
                  (HTTPException 404 "Interaction not found"))
           500)).
Proof.
  split.
  - intros self request. unfold submit_feedback, submit_feedback_try.
    destruct (update_target _ _) as [[history updated]|]; cbn; discriminate.
  - intros contexts interactions request records history.
    unfold submit_feedback, submit_feedback_try.
    cbn [interaction_history].
    rewrite update_target_no_attribute; [reflexivity|].
    unfold history. apply Forall_fmap, Forall_forall.
    now intros [[[[[now query] code] result] score] context] _.
Qed.

End WithExternal.

End FeedbackFacts.

(** ** Further properties of the scorer *)

Module ScorerMore.
Import PyStr Scorer ScorerFacts.

Lemma string_app_assoc (a b c : string) : (a +:+ b) +:+ c = a +:+ b +:+ c.
Proof.
  induction a as [|x a IH]; [reflexivity|].
  change (String x ((a +:+ b) +:+ c) = String x (a +:+ b +:+ c)).
  now f_equal.
Qed.

Lemma ci_contains_inside w text pre post :
  ci_contains w text = true ->
  ci_contains w (pre +:+ text +:+ post) = true.
Proof.
  rewrite !ci_contains_split. intros (p & mid & q & -> & Hmid).
  exists (pre +:+ p), mid, (q +:+ post). split; [|exact Hmid].
  now rewrite !string_app_assoc.
Qed.

(** A positive keyword decides the score whatever else the feedback says:
    0.8 for a missing result, 1.0 for any other, both above the learning
    threshold. *)
Theorem positive_feedback_wins result text :
  any_word_in positive_words (lower text) = true ->
  calculate_success_score result (Some text)
  = (if is_not_none result then 1%float else 0.8%float) /\
  is_successful (Some (calculate_success_score result (Some text))) = true.
Proof.
  rewrite (any_word_in_lower _ _ positive_words_lower). intros Hpos.
  rewrite score_unfold. cbv zeta. rewrite Hpos.
  destruct result as [| | | | | |[|? ?]|[|? ?]|]; vm_compute;
    split; reflexivity.
Qed.

Lemma positive_feedback_wins_witness :
  calculate_success_score PyNone (Some "Good try, but the total is wrong")
  = 0.8%float.
Proof.
  apply (positive_feedback_wins PyNone "Good try, but the total is wrong").
  vm_compute; reflexivity.
Defined.

(** A feedback with a negative keyword and no positive one gives 0.2, 0.5
    or 0.7, never a score above the learning threshold, whatever the
    result. *)
Theorem negative_feedback_never_successful result text :
  any_word_in positive_words (lower text) = false ->
  any_word_in negative_words (lower text) = true ->
  (calculate_success_score result (Some text) = 0.2%float \/
   calculate_success_score result (Some text) = 0.5%float \/
   calculate_success_score result (Some text) = 0.7%float) /\
  is_successful (Some (calculate_success_score result (Some text))) = false.
Proof.
  rewrite (any_word_in_lower _ _ positive_words_lower).
  rewrite (any_word_in_lower _ _ negative_words_lower). intros Hpos Hneg.
  rewrite score_unfold. cbv zeta. rewrite Hpos, Hneg.
  destruct result as [| | | | | |[|? ?]|[|? ?]|]; vm_compute; auto.
Qed.

Lemma negative_feedback_never_successful_witness :
  is_successful
    (Some (calculate_success_score (PyList [PyInt 1]) (Some "Wrong column")))
  = false.
Proof.
  apply (negative_feedback_never_successful (PyList [PyInt 1]) "Wrong column");
    vm_compute; reflexivity.
Defined.

(** The keyword test of the scorer is a substring test: a text that holds
    a keyword keeps holding it inside any longer text, whatever the case of
    the letters around it or in it. *)
Theorem keyword_survives_embedding words text pre post :
  Forall (fun w => lower w = w) words ->
  any_word_in words (lower text) = true ->
  any_word_in words (lower (pre +:+ text +:+ post)) = true.
Proof.
  intros Hwords. rewrite !(any_word_in_lower _ _ Hwords).
  unfold mentions. rewrite !existsb_exists.
  intros (w & Hin & Hw). exists w. split; [exact Hin|].
  now apply ci_contains_inside.
Qed.

Lemma keyword_survives_embedding_witness :
  any_word_in negative_words (lower ("Un" +:+ "BAD" +:+ "ly formatted"))
  = true.
Proof.
  apply (keyword_survives_embedding negative_words "BAD" "Un" "ly formatted");
    [exact negative_words_lower|vm_compute; reflexivity].
Defined.

End ScorerMore.

(** ** Further properties of the adaptive system *)

Module RagMore.
Import PyStr Scorer ScorerFacts Chroma Rag Main RagFacts.

Section WithExternal.
Context `{External}.

(** [add_contexts] only appends: what was in the context collection stays,
    in place; the documents that are added are, in order, contents of the
    given list, each stored with its own embedding; nothing else of the
    system changes. *)
Lemma add_contexts_from_sublist items :
  forall i (c : list (Entry Embedding)),
    exists added,
      add_contexts_from i items c = c ++ added /\
      (entry_document <$> added) `sublist_of` (content <$> items) /\
      Forall (fun e => encode (entry_document e) = Some (entry_embedding e))
             added.
Proof.
  induction items as [|item rest IH]; intros i c; cbn [add_contexts_from].
  - exists []. rewrite app_nil_r. repeat split; constructor.
  - assert (Hstop : exists added,
               c = c ++ added /\
               (entry_document <$> added)
                 `sublist_of` (content <$> item :: rest) /\
               Forall (fun e => encode (entry_document e)
                                = Some (entry_embedding e)) added).
    { exists []. rewrite app_nil_r.
      repeat split; [apply sublist_nil_l|constructor]. }
    destruct (encode (content item)) as [v|] eqn:Hv; [|exact Hstop].
    cbv zeta. unfold add.
    destruct (accepts_metadata _); [|exact Hstop].
    destruct (bool_decide _).
    + destruct on_duplicate; [|exact Hstop].
      destruct (IH (S i) c) as (added & -> & Hsub & Hemb).
      exists added. repeat split; [|exact Hemb].
      rewrite fmap_cons. now apply sublist_cons.
    + destruct (IH (S i) (c ++ [mkEntry
          ("context_" +:+ pretty (length (ids c) + i)) v (content item)
          (default ∅ (metadata item))])) as (added & -> & Hsub & Hemb).
      eexists (_ :: added). rewrite <- app_assoc. split; [reflexivity|].
      split; [rewrite !fmap_cons; now apply sublist_skip|].
      constructor; [exact Hv|exact Hemb].
Qed.

Theorem add_contexts_appends (self : RAGAdaptiveSystem)
    (items : list ContextItem) :
  exists added,
    context_collection (add_contexts self items)
    = context_collection self ++ added /\
    (entry_document <$> added) `sublist_of` (content <$> items) /\
    Forall (fun e => encode (entry_document e) = Some (entry_embedding e))
           added /\
    interaction_collection (add_contexts self items)
    = interaction_collection self /\
    interaction_history (add_contexts self items) = interaction_history self.
Proof.
  destruct (add_contexts_from_sublist items 0 (context_collection self))
    as (added & Hrun & Hsub & Hemb).
  exists added. unfold add_contexts. cbn. now rewrite Hrun.
Qed.

(** Once the id built from the size of the context collection is taken,
    no single context is ever stored again: every later [add_contexts] of
    one entry, and so every learned pattern, leaves the collection as it
    is. *)
Lemma add_one_context_blocked (c : list (Entry Embedding)) item :
  "context_" +:+ pretty (length c) ∈ ids c ->
  add_contexts_from 0 [item] c = c.
Proof.
  intros Htaken. cbn [add_contexts_from].
  destruct (encode (content item)) as [v|]; [|reflexivity]. cbv zeta.
  destruct (add _ _ _ _) as [c'|] eqn:Hadd; [|reflexivity].
  apply add_taken in Hadd; [now subst c'|].
  cbn [entry_id]. unfold ids at 1. rewrite length_fmap, Nat.add_0_r.
  exact Htaken.
Qed.

Theorem context_collection_saturates (self : RAGAdaptiveSystem) :
  "context_" +:+ pretty (length (context_collection self))
    ∈ ids (context_collection self) ->
  (forall items : list ContextItem,
      context_collection
        (fold_left (fun s item => add_contexts s [item]) items self)
      = context_collection self) /\
  (forall interaction,
      context_collection (add_interaction self interaction)
      = context_collection self).
Proof.
  intros Htaken. split.
  - intros items. revert self Htaken.
    induction items as [|item items IH]; intros self Htaken;
      cbn [fold_left]; [reflexivity|].
    assert (Hsame : context_collection (add_contexts self [item])
                    = context_collection self)
      by (unfold add_contexts; cbn [context_collection];
          now apply add_one_context_blocked).
    rewrite IH; rewrite Hsame; [reflexivity|exact Htaken].
  - intros interaction. unfold add_interaction.
    destruct (encode (user_query interaction)); [|reflexivity].
    destruct (dumps interaction); [|reflexivity]. cbv zeta.
    destruct (add _ _ _ _); [|reflexivity].
    destruct (is_successful _); [|reflexivity].
    unfold _learn_from_successful_interaction.
    destruct (truthy _); [|reflexivity].
    unfold add_contexts. cbn [context_collection].
    now apply add_one_context_blocked.
Qed.

(** On an empty collection, a batch that the embedder and the store take
    is stored whole, in order, under the ids 0, 2, 4, ...: the index of
    the loop is added to a size that has already grown by it. *)
Lemma batch_ids_from i : forall items (c : list (Entry Embedding)),
  length c = i ->
  ids c = (fun k => "context_" +:+ pretty (k + k)) <$> seq 0 i ->
  Forall (fun item =>
            is_Some (encode (content item)) /\
            accepts_metadata (default ∅ (metadata item)) = true) items ->
  ids (add_contexts_from i items c)
  = (fun k => "context_" +:+ pretty (k + k)) <$> seq 0 (i + length items) /\
  entry_document <$> add_contexts_from i items c
  = (entry_document <$> c) ++ (content <$> items).
Proof.
  intros items. revert i.
  induction items as [|item rest IH]; intros i c Hlen Hids Hall.
  - cbn [add_contexts_from length fmap list_fmap].
    now rewrite Nat.add_0_r, app_nil_r.
  - apply Forall_cons in Hall as [[[v Hv] Hok] Hall].
    assert (Hsize : length (ids c) + i = i + i)
      by (unfold ids; now rewrite length_fmap, Hlen).
    erewrite add_contexts_from_cons; [|exact Hv|exact Hok|].
    + rewrite Hsize.
      destruct (IH (S i)
                  (c ++ [mkEntry ("context_" +:+ pretty (i + i)) v
                                 (content item)
                                 (default ∅ (metadata item))]))
        as [Hids' Hdocs']; [| |exact Hall|].
      * rewrite length_app. cbn. lia.
      * unfold ids in *. rewrite fmap_app, Hids, seq_S, fmap_app.
        reflexivity.
      * rewrite Hids', Hdocs'. cbn [length]. split.
        -- f_equal. f_equal. lia.
        -- rewrite fmap_app, <- app_assoc. reflexivity.
    + rewrite Hsize, Hids. intros Hin.
      apply list_elem_of_fmap in Hin as (k & Heq & Hk).
      apply String.app_inj, pretty_nat_inj in Heq.
      apply elem_of_seq in Hk. lia.
Qed.

Theorem batch_ids_skip_by_two (self : RAGAdaptiveSystem)
    (items : list ContextItem) :
  context_collection self = [] ->
  Forall (fun item =>
            is_Some (encode (content item)) /\
            accepts_metadata (default ∅ (metadata item)) = true) items ->
  ids (context_collection (add_contexts self items))
  = (fun k => "context_" +:+ pretty (2 * k)) <$> seq 0 (length items) /\
  entry_document <$> context_collection (add_contexts self items)
  = content <$> items.
Proof.
  intros Hempty Hall. unfold add_contexts. cbn [context_collection].
  rewrite Hempty.
  destruct (batch_ids_from 0 items [] eq_refl eq_refl Hall) as [Hids Hdocs].
  rewrite Hids, Hdocs. split; [|reflexivity].
  apply list_fmap_ext. intros _ k _. f_equal. f_equal. lia.
Qed.

End WithExternal.

Lemma context_collection_saturates_witness :
  let seeded :=
    @_initialize_knowledge_base (InMemory.external DuplicateIgnored [])
      (mkRAG [] [] []) in
  let self := add_contexts seeded [InMemory.note "first note"] in
  length (context_collection
            (fold_left (fun s item => add_contexts s [item])
                       [InMemory.note "second note";
                        InMemory.note "third note"] self))
  = 6.
Proof.
  intros seeded self.
  rewrite (proj1 (@context_collection_saturates
                    (InMemory.external DuplicateIgnored []) self
                    ltac:(decide_by_computation))).
  vm_compute; reflexivity.
Defined.

Lemma batch_ids_skip_by_two_witness :
  ids (@context_collection (InMemory.external DuplicateRaises [])
         (add_contexts (mkRAG [] [] [])
            [InMemory.note "a"; InMemory.note "b"; InMemory.note "c"]))
  = ["context_0"; "context_2"; "context_4"].
Proof.
  rewrite (proj1 (@batch_ids_skip_by_two
                    (InMemory.external DuplicateRaises []) (mkRAG [] [] [])
                    [InMemory.note "a"; InMemory.note "b";
                     InMemory.note "c"]
                    eq_refl
                    ltac:(repeat constructor; vm_compute; eauto))).
  vm_compute; reflexivity.
Defined.

End RagMore.

(** ** Properties of the interaction store and of retrieval *)

Module InteractionFacts.
Import PyStr Scorer ScorerFacts Chroma Rag Main RagFacts.

Section WithExternal.
Context `{External}.

(** What [add_interaction] leaves untouched when the score or the code
    rules learning out. *)
Lemma add_interaction_no_learning (self : RAGAdaptiveSystem) interaction :
  is_successful (success_score interaction) = false \/
  generated_code interaction = "" ->
  context_collection (add_interaction self interaction)
  = context_collection self.
Proof.
  intros Hskip. unfold add_interaction.
  destruct (encode (user_query interaction)); [|reflexivity].
  destruct (dumps interaction); [|reflexivity]. cbv zeta.
  destruct (add _ _ _ _); [|reflexivity].
  unfold _learn_from_successful_interaction.
  destruct Hskip as [-> | ->]; [reflexivity|].
  cbn [truthy]. now destruct (is_successful _).
Qed.

(** [add_interaction] is all or nothing on the record: when the embedder,
    the JSON encoder or the store raises, the system is left exactly as it
    was, so the interaction is in neither the store nor the history;
    otherwise the history grows by this one interaction, at its end. *)
Theorem add_interaction_all_or_nothing (self : RAGAdaptiveSystem)
    (interaction : Interaction) :
  (add_interaction self interaction = self \/
   interaction_history (add_interaction self interaction)
   = interaction_history self ++ [interaction]) /\
  (encode (user_query interaction) = None \/ dumps interaction = None \/
   accepts_metadata (interaction_metadata interaction) = false ->
   add_interaction self interaction = self).
Proof.
  unfold add_interaction. split.
  - destruct (encode (user_query interaction)); [|now left].
    destruct (dumps interaction); [|now left]. cbv zeta.
    destruct (add _ _ _ _); [|now left]. right.
    destruct (is_successful _); [|reflexivity].
    unfold _learn_from_successful_interaction.
    now destruct (truthy _).
  - intros [-> | [Hdumps | Hmeta]]; [reflexivity| |].
    + destruct (encode _); [|reflexivity]. now rewrite Hdumps.
    + destruct (encode _); [|reflexivity].
      destruct (dumps _); [|reflexivity]. cbv zeta.
      unfold add. cbn [entry_metadata]. now rewrite Hmeta.
Qed.

(** The ids of the interaction collection never clash: as long as they are
    [interaction_0], [interaction_1], ... in order, which [add_interaction]
    maintains, an interaction that the embedder, the encoder and the store
    take is stored under the next number and appended to the history. *)
Theorem interaction_ids_sequential (self : RAGAdaptiveSystem)
    (interaction : Interaction) v document :
  ids (interaction_collection self)
  = (fun k => "interaction_" +:+ pretty k)
      <$> seq 0 (length (interaction_collection self)) ->
  encode (user_query interaction) = Some v ->
  dumps interaction = Some document ->
  accepts_metadata (interaction_metadata interaction) = true ->
  interaction_collection (add_interaction self interaction)
  = interaction_collection self ++
    [mkEntry ("interaction_"
              +:+ pretty (length (interaction_collection self)))
             v document (interaction_metadata interaction)] /\
  ids (interaction_collection (add_interaction self interaction))
  = (fun k => "interaction_" +:+ pretty k)
      <$> seq 0 (S (length (interaction_collection self))) /\
  interaction_history (add_interaction self interaction)
  = interaction_history self ++ [interaction].
Proof.
  intros Hids Hv Hdoc Hok.
  assert (Hnew : "interaction_"
                 +:+ pretty (length (interaction_collection self))
                 ∉ ids (interaction_collection self)).
  { rewrite Hids. intros Hin.
    apply list_elem_of_fmap in Hin as (k & Heq & Hk).
    apply String.app_inj, pretty_nat_inj in Heq.
    apply elem_of_seq in Hk. lia. }
  set (stored := interaction_collection self ++
                 [mkEntry ("interaction_" +:+
                           pretty (length (interaction_collection self)))
                          v document (interaction_metadata interaction)]).
  set (recorded := mkRAG (context_collection self) stored
                         (interaction_history self ++ [interaction])).
  assert (Hrun : add_interaction self interaction
                 = if is_successful (success_score interaction)
                   then _learn_from_successful_interaction recorded
                                                           interaction
                   else recorded).
  { unfold add_interaction. rewrite Hv, Hdoc. cbv zeta.
    unfold ids at 1. rewrite length_fmap.
    now rewrite add_fresh. }
  rewrite Hrun.
  assert (Hkeep : forall s : RAGAdaptiveSystem,
             interaction_collection
               (if is_successful (success_score interaction)
                then _learn_from_successful_interaction s interaction
                else s) = interaction_collection s /\
             interaction_history
               (if is_successful (success_score interaction)
                then _learn_from_successful_interaction s interaction
                else s) = interaction_history s).
  { intros s. destruct (is_successful _); [|now split].
    unfold _learn_from_successful_interaction.
    now destruct (truthy _). }
  destruct (Hkeep recorded) as [-> ->].
  subst recorded stored. cbn [interaction_collection interaction_history].
  repeat split. unfold ids in *.
  now rewrite fmap_app, Hids, seq_S, fmap_app.
Qed.

(** The loop of [get_similar_interactions] keeps exactly the documents
    that parse, in order: a document that does not parse is skipped and
    the loop goes on. *)
Lemma parse_interactions_omap docs :
  parse_interactions docs = omap loads docs.
Proof.
  induction docs as [|doc docs IH]; cbn [parse_interactions omap list_omap];
    [reflexivity|].
  destruct (loads doc); now rewrite IH.
Qed.

Lemma parse_interactions_spec docs :
  length (parse_interactions docs) <= length docs /\
  forall i, i ∈ parse_interactions docs ->
            exists doc, doc ∈ docs /\ loads doc = Some i.
Proof.
  induction docs as [|doc docs [IHlen IHin]]; cbn [parse_interactions].
  - split; [reflexivity|]. intros i Hi. now apply elem_of_nil in Hi.
  - destruct (loads doc) as [i0|] eqn:Hdoc.
    + split; [cbn; lia|]. intros i Hi.
      apply elem_of_cons in Hi as [->|Hi].
      * exists doc. split; [left|exact Hdoc].
      * destruct (IHin i Hi) as (d & Hd & Hload).
        exists d. split; [now right|exact Hload].
    + split; [cbn; lia|]. intros i Hi.
      destruct (IHin i Hi) as (d & Hd & Hload).
      exists d. split; [now right|exact Hload].
Qed.

(** [get_similar_interactions] returns, in the order of the index, the
    interactions parsed from the documents that the index answers, the
    documents that do not parse being skipped; so at most [top_k]
    interactions, each parsed from a document of the interaction
    collection; and the empty list when the embedder fails, when the index
    fails and on an empty collection. *)
Theorem get_similar_interactions_degrades (index_ok : index_contract)
    (self : RAGAdaptiveSystem) (query : string) (top_k : Z) :
  (forall v docs rest,
      encode query = Some v ->
      query_documents (interaction_collection self) v top_k
      = Some (Some (docs :: rest)) ->
      get_similar_interactions self query top_k = omap loads docs) /\
  (Z.of_nat (length (get_similar_interactions self query top_k))
   <= Z.max 0 top_k)%Z /\
  (forall i, i ∈ get_similar_interactions self query top_k ->
     exists e, e ∈ interaction_collection self /\
               loads (entry_document e) = Some i) /\
  (encode query = None -> get_similar_interactions self query top_k = []) /\
  (forall v, encode query = Some v ->
     query_documents (interaction_collection self) v top_k = None ->
     get_similar_interactions self query top_k = []) /\
  (interaction_collection self = [] ->
   get_similar_interactions self query top_k = []).
Proof.
  unfold get_similar_interactions. split; [|repeat split].
  - intros v docs rest -> ->. apply parse_interactions_omap.
  - destruct (encode query) as [v|]; [|cbn; lia].
    destruct (query_documents _ v top_k) as [[[|docs rest]|]|] eqn:Hq;
      try (cbn; lia).
    destruct (index_ok _ _ _ _ _ Hq) as (hits & -> & _ & Hlen & _).
    pose proof (proj1 (parse_interactions_spec (entry_document <$> hits)))
      as Hparse.
    rewrite length_fmap in Hparse. lia.
  - intros i Hi. destruct (encode query) as [v|];
      [|now apply elem_of_nil in Hi].
    destruct (query_documents _ v top_k) as [[[|docs rest]|]|] eqn:Hq;
      try (now apply elem_of_nil in Hi).
    destruct (index_ok _ _ _ _ _ Hq) as (hits & -> & Hsub & _).
    apply parse_interactions_spec in Hi as (doc & Hdoc & Hload).
    apply list_elem_of_fmap in Hdoc as (e & -> & He).
    exists e. split; [|exact Hload].
    eapply elem_of_submseteq; eassumption.
  - now intros ->.
  - now intros v -> ->.
  - intros Hempty. destruct (encode query) as [v|]; [|reflexivity].
    destruct (query_documents _ v top_k) as [[[|docs rest]|]|] eqn:Hq;
      try reflexivity.
    destruct (index_ok _ _ _ _ _ Hq) as (hits & -> & Hsub & _).
    rewrite Hempty in Hsub. apply submseteq_nil_r in Hsub. now subst hits.
Qed.

(** The code excerpt of the prompt holds at most 200 characters of the
    code, always followed by three dots: a code of at most 200 characters
    is quoted whole, and still followed by the dots. *)
Theorem pattern_lines_excerpt (interaction : Interaction) :
  (exists excerpt rest,
      pattern_lines interaction
      = ["- Query: " +:+ user_query interaction;
         "- Successful code: " +:+ excerpt +:+ "..."] /\
      generated_code interaction = excerpt +:+ rest /\
      String.length excerpt
      = Nat.min 200 (String.length (generated_code interaction))) /\
  (String.length (generated_code interaction) <= 200 ->
   pattern_lines interaction
   = ["- Query: " +:+ user_query interaction;
      "- Successful code: " +:+ generated_code interaction +:+ "..."]).
Proof.
  destruct (slice_to_prefix 200 (generated_code interaction))
    as [Hlen [rest Hrest]].
  split.
  - exists (slice_to 200 (generated_code interaction)), rest.
    now repeat split.
  - intros Hshort. unfold pattern_lines.
    assert (Hall : forall n s, String.length s <= n -> slice_to n s = s).
    { induction n as [|n IH]; intros [|c s] Hs; cbn in *;
        try reflexivity; [lia|]. rewrite IH; [reflexivity|lia]. }
    now rewrite Hall.
Qed.

End WithExternal.

Lemma add_interaction_all_or_nothing_witness :
  @add_interaction
    (InMemory.external DuplicateIgnored [])
    (mkRAG [] [] [])
    (new_interaction "2024-01-01T00:00:00" "count the rows"
                     "result = len(rows)" (PyInt 3) (Some 0.8%float) None)
  = mkRAG [] [] [].
Proof.
  apply (proj2 (@add_interaction_all_or_nothing
                  (InMemory.external DuplicateIgnored []) (mkRAG [] [] [])
                  (new_interaction "2024-01-01T00:00:00" "count the rows"
                     "result = len(rows)" (PyInt 3) (Some 0.8%float) None))).
  right. right. vm_compute; reflexivity.
Defined.

Lemma interaction_ids_sequential_witness :
  let interaction :=
    mkInteraction "2024-01-01T00:00:00" "count the rows"
                  "result = len(rows)" (PyInt 3) (Some "as expected")
                  (Some 0.8%float) None None in
  let once :=
    @add_interaction (InMemory.external DuplicateRaises [])
      (mkRAG [] [] []) interaction in
  ids (interaction_collection (add_interaction once interaction))
  = ["interaction_0"; "interaction_1"].
Proof.
  intros interaction once.
  apply (@interaction_ids_sequential
           (InMemory.external DuplicateRaises []) once interaction
           14 "count the rows");
    vm_compute; reflexivity.
Defined.

(** Two interactions are stored; only the document of the first parses;
    both documents are retrieved and the second is skipped. *)
Lemma get_similar_interactions_degrades_witness :
  let low :=
    mkInteraction "2024-01-01T00:00:00" "total sales" "result = 1"
                  (PyInt 1) (Some "not what I asked") (Some 0.5%float)
                  None None in
  let other :=
    mkInteraction "2024-01-02T00:00:00" "mean price" "result = 2"
                  (PyInt 2) (Some "fine") (Some 0.8%float) None None in
  let self :=
    @add_interaction (InMemory.external DuplicateIgnored
                        [("total sales", low)])
      (add_interaction (mkRAG [] [] []) low) other in
  get_similar_interactions self "total sales" 2 = [low].
Proof.
  intros low other self.
  rewrite (proj1 (@get_similar_interactions_degrades
                    (InMemory.external DuplicateIgnored
                       [("total sales", low)])
                    (in_memory_index_contract DuplicateIgnored
                       [("total sales", low)])
                    self "total sales" 2)
             11 ["total sales"; "mean price"] []);
    vm_compute; reflexivity.
Defined.

Lemma pattern_lines_excerpt_witness :
  pattern_lines
    (new_interaction "2024-01-01T00:00:00" "count the rows"
                     "result = len(rows)" (PyInt 3) (Some 0.8%float) None)
  = ["- Query: count the rows";
     "- Successful code: result = len(rows)..."].
Proof.
  apply (proj2 (pattern_lines_excerpt
                  (new_interaction "2024-01-01T00:00:00" "count the rows"
                     "result = len(rows)" (PyInt 3) (Some 0.8%float) None))).
  vm_compute. lia.
Defined.

End InteractionFacts.

(** ** Properties of the request handlers *)

Module EndpointFacts.
Import PyStr Scorer ScorerFacts Chroma Rag Main Endpoints RagFacts.
Import InteractionFacts.

(** Within the timeout, [safe_exec] ends when the worker ends: it returns
    the value that the code bound to [result], or [None] when it bound
    none, with no error; or it returns [None] with the exception that the
    code raised, when that exception derives from [Exception]; any other
    exception of the code leaves [safe_exec] uncaught. *)
Theorem safe_exec_in_time builtins_module (code : Program)
    duration outcome (timeout : option nat) :
  code (load_name builtins_module allowed_globals local_vars)
  = Finishes duration outcome ->
  duration <= default EXECUTION_TIMEOUT timeout ->
  safe_exec builtins_module code timeout
  = Some (duration,
          match outcome with
          | inr locals => inr (default PyNone (locals !! "result"), None)
          | inl e => if is_exception e then inr (PyNone, Some e) else inl e
          end).
Proof.
  intros Hrun Hin. unfold safe_exec, future_result, shutdown_wait.
  rewrite Hrun. apply Nat.leb_le in Hin. rewrite Hin.
  destruct outcome; cbn; now rewrite Nat.max_id.
Qed.

Lemma safe_exec_in_time_witness :
  safe_exec ∅ (fun _ => Finishes 2 (inr {[ "result" := PyInt 7 ]})) None
  = Some (2, inr (PyInt 7, None)) /\
  safe_exec ∅ (fun _ => Finishes 2 (inl (NonException "SystemExit"))) None
  = Some (2, inl (NonException "SystemExit")).
Proof.
  split.
  - rewrite (safe_exec_in_time ∅ _ 2 (inr {[ "result" := PyInt 7 ]}) None);
      [vm_compute; reflexivity|reflexivity|vm_compute; lia].
  - rewrite (safe_exec_in_time ∅ _ 2 (inl (NonException "SystemExit")) None);
      [reflexivity|reflexivity|vm_compute; lia].
Defined.

(** Whenever [safe_exec] ends, it ends at the moment the worker ends, not
    before. When it returns, an error never comes with a result, and a
    worker that outlives the timeout gives the timeout error; when it
    raises, the exception is one of the code, not derived from
    [Exception], raised within the timeout. *)
Theorem safe_exec_returns_after_worker builtins_module (code : Program)
    timeout finished ended :
  safe_exec builtins_module code timeout = Some (finished, ended) ->
  exists duration outcome,
    code (load_name builtins_module allowed_globals local_vars)
    = Finishes duration outcome /\
    finished = duration /\
    match ended with
    | inr (value, error) =>
        (error <> None -> value = PyNone) /\
        (default EXECUTION_TIMEOUT timeout < duration ->
         error = Some TimeoutError)
    | inl e =>
        is_exception e = false /\ outcome = inl e /\
        duration <= default EXECUTION_TIMEOUT timeout
    end.
Proof.
  unfold safe_exec, future_result, shutdown_wait.
  destruct (code _) as [duration outcome|]; [|discriminate].
  destruct (duration <=? default EXECUTION_TIMEOUT timeout) eqn:Hin.
  - apply Nat.leb_le in Hin.
    destruct outcome as [e|locals]; cbn.
    + destruct (is_exception e) eqn:He; intros [= <- <-];
        exists duration; eexists; repeat split;
        try congruence; try lia.
    + intros [= <- <-]. exists duration. eexists.
      repeat split; try congruence; lia.
  - apply Nat.leb_gt in Hin. cbn. intros [= <- <-].
    exists duration, outcome. repeat split; try lia; reflexivity.
Qed.

Lemma safe_exec_returns_after_worker_witness :
  exists duration outcome,
    Finishes 300 (inr {[ "result" := PyInt 7 ]}) = Finishes duration outcome /\
    300 = duration /\
    (Some TimeoutError <> None -> PyNone = PyNone) /\
    (default EXECUTION_TIMEOUT None < duration ->
     Some TimeoutError = Some TimeoutError).
Proof.
  apply (safe_exec_returns_after_worker
           ∅ (fun _ => Finishes 300 (inr {[ "result" := PyInt 7 ]})) None
           300 (inr (PyNone, Some TimeoutError))).
  vm_compute; reflexivity.
Defined.

Section WithExternal.
Context `{External}.


(** [add_context] answers with the success message whatever happened to
    the entry: when the embedder fails on the content, or when the id
    built from the size of the collection is taken, nothing is stored and
    the answer is the same. *)
Theorem add_context_always_succeeds (self : RAGAdaptiveSystem)
    (request : ContextRequest.t) :
  (add_context self request).2
  = mkResponse (Message "Context added successfully") 200 /\
  (encode (ContextRequest.content request) = None \/
   "context_" +:+ pretty (length (context_collection self))
     ∈ ids (context_collection self) ->
   (add_context self request).1 = self).
Proof.
  split; [reflexivity|].
  intros Hlost. unfold add_context, add_contexts.
  cbn [fst context_collection]. destruct self as [ctx ic history].
  cbn [context_collection interaction_collection interaction_history] in *.
  f_equal. destruct Hlost as [Henc|Htaken].
  - cbn [add_contexts_from content]. now rewrite Henc.
  - now apply RagMore.add_one_context_blocked.
Qed.

(** The statistics follow the history: an interaction that
    [add_interaction] records adds one to the total, and one to the
    successful ones exactly when its score is above 0.7; the successful
    ones are never more than the total. *)
Theorem stats_follow_history (self : RAGAdaptiveSystem)
    (interaction : Interaction) :
  successful_interactions (get_system_stats self)
  <= total_interactions (get_system_stats self) /\
  (interaction_history (add_interaction self interaction)
   = interaction_history self ++ [interaction] ->
   total_interactions (get_system_stats (add_interaction self interaction))
   = S (total_interactions (get_system_stats self)) /\
   successful_interactions
     (get_system_stats (add_interaction self interaction))
   = successful_interactions (get_system_stats self)
     + (if is_successful (success_score interaction) then 1 else 0)).
Proof.
  unfold get_system_stats. cbn [total_interactions successful_interactions].
  split; [apply filter_length_le|].
  intros ->. rewrite List.filter_app, !length_app. cbn [List.filter].
  split; [cbn; lia|].
  now destruct (is_successful (success_score interaction)).
Qed.

(** [submit_feedback] never touches the vector store's copy of an
    interaction and never adds to or removes from the history: only the
    fields of one record of the history, and the context collection, can
    change. *)
Lemma update_target_length request history :
  forall history' updated,
    update_target request history = Some (history', updated) ->
    length history' = length history.
Proof.
  induction history as [|i rest IH]; intros history' updated;
    cbn [update_target]; [discriminate|].
  destruct (is_target request i); [now intros [= <- _]|].
  destruct (update_target request rest) as [[rest' updated']|];
    [|discriminate].
  intros [= <- _]. cbn. f_equal. now eapply IH.
Qed.

Theorem submit_feedback_keeps_store (self : RAGAdaptiveSystem)
    (request : FeedbackRequest.t) :
  interaction_collection (submit_feedback self request).1
  = interaction_collection self /\
  length (interaction_history (submit_feedback self request).1)
  = length (interaction_history self).
Proof.
  unfold submit_feedback, submit_feedback_try.
  destruct (update_target _ _) as [[history updated]|] eqn:Hfound;
    [|now split].
  apply update_target_length in Hfound. cbn [fst].
  destruct (is_successful _); [|now split].
  unfold _learn_from_successful_interaction.
  destruct (truthy _); now split.
Qed.

(** The ids of both collections stay pairwise distinct under every
    operation of the system: the store never holds two records under one
    id, whatever ids the system computes. *)
Theorem ids_stay_distinct (self : RAGAdaptiveSystem) :
  ids_distinct self ->
  ids_distinct (_initialize_knowledge_base self) /\
  (forall items, ids_distinct (add_contexts self items)) /\
  (forall interaction, ids_distinct (add_interaction self interaction)) /\
  (forall request, ids_distinct (submit_feedback self request).1) /\
  (forall request, ids_distinct (add_context self request).1).
Proof.
  unfold ids_distinct. intros [Hctx Hic].
  assert (Hadd : forall (s : RAGAdaptiveSystem) items,
             NoDup (ids (context_collection s)) ->
             NoDup (ids (interaction_collection s)) ->
             NoDup (ids (context_collection (add_contexts s items))) /\
             NoDup (ids (interaction_collection (add_contexts s items)))).
  { intros s items Hs1 Hs2. split; [|exact Hs2].
    now apply add_contexts_keeps_ids_unique. }
  assert (Hlearn : forall (s : RAGAdaptiveSystem) i,
             NoDup (ids (context_collection s)) ->
             NoDup (ids (interaction_collection s)) ->
             NoDup (ids (context_collection
                           (if is_successful (success_score i)
                            then _learn_from_successful_interaction s i
                            else s))) /\
             NoDup (ids (interaction_collection
                           (if is_successful (success_score i)
                            then _learn_from_successful_interaction s i
                            else s)))).
  { intros s i Hs1 Hs2. destruct (is_successful _); [|now split].
    unfold _learn_from_successful_interaction.
    destruct (truthy _); [now apply Hadd|now split]. }
  split; [|split; [|split; [|split]]].
  - unfold _initialize_knowledge_base.
    destruct (count _ =? 0); [now apply Hadd|now split].
  - intros items. now apply Hadd.
  - intros i. unfold add_interaction.
    destruct (encode (user_query i)); [|now split].
    destruct (dumps i); [|now split]. cbv zeta.
    destruct (add _ _ _ _) as [stored|] eqn:Hstored; [|now split].
    apply Hlearn; cbn [context_collection interaction_collection];
      [exact Hctx|]. eapply add_keeps_ids_unique; eassumption.
  - intros request. unfold submit_feedback, submit_feedback_try.
    destruct (update_target _ _) as [[history updated]|]; [|now split].
    cbn [fst]. now apply Hlearn.
  - intros request. unfold add_context. cbn [fst]. now apply Hadd.
Qed.

(** [analyze]: when the language model fails nothing is stored, and the
    answer is "Analysis failed" with status 500 for an exception that
    derives from [Exception], the exception itself otherwise; a request
    whose code never ends is never answered; a response always carries the
    interaction id and status 200 or 500; a status 200 always carries a
    result that could be rendered, the retrieved context and a score of
    0.5, 0.8 or 1.0; a failed execution answers 500 with the error and the
    code, and leaves the context collection as it was; and when the
    handler raises, nothing was stored. *)
Theorem analyze_outcomes llm exec builtins_module renderable
    (self : RAGAdaptiveSystem) (now interaction_id task : string) :
  (forall e, llm (get_adaptive_prompt self task) = inl e ->
     analyze llm exec builtins_module renderable self now interaction_id task
     = Some (self,
             if is_exception e
             then inr (mkAnalyzeResponse (AnalysisFailed e)
                                         interaction_id 500)
             else inl e)) /\
  (forall code, llm (get_adaptive_prompt self task) = inr code ->
     exec code (load_name builtins_module allowed_globals local_vars)
     = RunsForever ->
     analyze llm exec builtins_module renderable self now interaction_id task
     = None) /\
  (forall after response,
     analyze llm exec builtins_module renderable self now interaction_id task
     = Some (after, inr response) ->
     analyze_interaction_id response = interaction_id /\
     (analyze_status response = 200%Z \/ analyze_status response = 500%Z) /\
     (analyze_status response = 200%Z ->
      exists result code,
        analyze_content response
        = AnalysisResult result code
            (Some (retrieve_relevant_context self task 3))
            (calculate_success_score result None) /\
        (calculate_success_score result None = 0.5%float \/
         calculate_success_score result None = 0.8%float \/
         calculate_success_score result None = 1%float) /\
        renderable result = true /\
        llm (get_adaptive_prompt self task) = inr code) /\
     (forall error code,
        analyze_content response = ExecutionFailed error code ->
        analyze_status response = 500%Z /\
        context_collection after = context_collection self)) /\
  (forall after e,
     analyze llm exec builtins_module renderable self now interaction_id task
     = Some (after, inl e) ->
     after = self /\ is_exception e = false).
Proof.
  unfold analyze. split; [intros e ->; now destruct (is_exception e)|].
  split.
  { intros code -> Hrun. unfold safe_exec. now rewrite Hrun. }
  split.
  - intros after response.
    destruct (llm _) as [e|code] eqn:Hllm.
    { destruct (is_exception e); [|discriminate].
      intros [= <- <-]. cbn. repeat split; try (now right); discriminate. }
    destruct (safe_exec _ _ _) as [[t [e|[result [error|]]]]|];
      [discriminate| | |discriminate].
    + intros [= <- <-]. cbn. split; [reflexivity|]. split; [now right|].
      split; [discriminate|]. intros _ _ _. split; [reflexivity|].
      apply add_interaction_no_learning. now left.
    + destruct (renderable result) eqn:Hrender; intros [= <- <-]; cbn;
        (split; [reflexivity|]).
      * split; [now left|]. split; [|discriminate].
        intros _. exists result, code. repeat split; try assumption.
        rewrite score_without_feedback.
        destruct (present result), (nonempty_mapping_or_sequence result);
          auto.
      * split; [now right|]. split; discriminate.
  - intros after e.
    destruct (llm _) as [e'|code] eqn:Hllm.
    { destruct (is_exception e') eqn:He; [discriminate|].
      now intros [= <- <-]. }
    destruct (safe_exec _ _ _) as [[t [e'|[result [error|]]]]|] eqn:Hrun;
      [| | |discriminate].
    + intros [= <- <-]. split; [reflexivity|].
      apply safe_exec_returns_after_worker in Hrun
        as (duration & outcome & _ & _ & He & _). exact He.
    + discriminate.
    + destruct (renderable result); discriminate.
Qed.

End WithExternal.

Lemma add_context_always_succeeds_witness :
  let seeded :=
    @_initialize_knowledge_base (InMemory.external DuplicateIgnored [])
      (mkRAG [] [] []) in
  let self := add_contexts seeded [InMemory.note "first note"] in
  (add_context self
     (ContextRequest.mk "second note"
                        (Some {[ "source" := MetaStr "user" ]}))).1
  = self.
Proof.
  intros seeded self.
  apply (proj2 (@add_context_always_succeeds
                  (InMemory.external DuplicateIgnored []) self
                  (ContextRequest.mk "second note"
                     (Some {[ "source" := MetaStr "user" ]})))).
  right. decide_by_computation.
Defined.

Lemma stats_follow_history_witness :
  let interaction :=
    mkInteraction "2024-01-01T00:00:00" "count the rows"
                  "result = len(rows)" (PyInt 3) (Some "as expected")
                  (Some 0.8%float) None None in
  successful_interactions
    (get_system_stats
       (@add_interaction (InMemory.external DuplicateIgnored [])
          (mkRAG [] [] []) interaction))
  = 1.
Proof.
  intros interaction.
  rewrite (proj2 (proj2 (@stats_follow_history
                           (InMemory.external DuplicateIgnored [])
                           (mkRAG [] [] []) interaction)
                    ltac:(vm_compute; reflexivity))).
  vm_compute; reflexivity.
Defined.

Lemma ids_stay_distinct_witness :
  @ids_distinct (InMemory.external DuplicateRaises [])
    (_initialize_knowledge_base (mkRAG [] [] [])).
Proof.
  refine (proj1 (@ids_stay_distinct (InMemory.external DuplicateRaises [])
                   (mkRAG [] [] []) _)).
  split; constructor.
Defined.

Lemma analyze_outcomes_witness :
  @analyze (InMemory.external DuplicateIgnored [])
    (fun _ => inl (OtherException "model unavailable"))
    (fun _ _ => RunsForever) ∅ (fun _ => true)
    (mkRAG [] [] []) "2024-01-01T00:00:00" "interaction_1" "count the rows"
  = Some (mkRAG [] [] [],
          inr (mkAnalyzeResponse
                 (AnalysisFailed (OtherException "model unavailable"))
                 "interaction_1" 500)).
Proof.
  apply (proj1 (@analyze_outcomes (InMemory.external DuplicateIgnored [])
                  (fun _ => inl (OtherException "model unavailable"))
                  (fun _ _ => RunsForever) ∅ (fun _ => true)
                  (mkRAG [] [] []) "2024-01-01T00:00:00" "interaction_1"
                  "count the rows")
           (OtherException "model unavailable")).
  reflexivity.
Defined.

End EndpointFacts.

(** ** Properties of the configuration *)

Module ConfigFacts.
Import PyStr Config.

Lemma truthy_nonempty s : truthy s = true <-> s <> "".
Proof. destruct s; cbn; split; congruence. Qed.

(** [validate] accepts exactly the configurations with a known provider
    whose own key is set, at least one context, a threshold that is
    neither below 0 nor above 1, and a timeout of at least 10 seconds. *)
Theorem validate_accepts (cfg : RAGConfig) :
  validate cfg = true <->
  ((LLM_PROVIDER cfg = "openai" /\ OPENAI_API_KEY cfg <> "") \/
   (LLM_PROVIDER cfg = "gemini" /\ GOOGLE_API_KEY cfg <> "")) /\
  (1 <= CONTEXT_TOP_K cfg)%Z /\
  (SUCCESS_THRESHOLD cfg <? 0)%float = false /\
  (1 <? SUCCESS_THRESHOLD cfg)%float = false /\
  (10 <= EXECUTION_TIMEOUT cfg)%Z.
Proof.
  unfold validate, validation_errors, known_provider.
  rewrite <- !truthy_nonempty.
  destruct (String.eqb_spec (LLM_PROVIDER cfg) "openai") as [Ho|Ho];
    destruct (String.eqb_spec (LLM_PROVIDER cfg) "gemini") as [Hg|Hg];
    try (rewrite Ho in Hg; discriminate Hg);
    destruct (truthy (OPENAI_API_KEY cfg)), (truthy (GOOGLE_API_KEY cfg));
    destruct (Z.ltb_spec (CONTEXT_TOP_K cfg) 1);
    destruct (SUCCESS_THRESHOLD cfg <? 0)%float;
    destruct (1 <? SUCCESS_THRESHOLD cfg)%float;
    destruct (Z.ltb_spec (EXECUTION_TIMEOUT cfg) 10);
    cbn; split; try discriminate; try (intros; exfalso; intuition (congruence || lia));
    intros _; repeat split; auto; lia.
Qed.

(** A configuration that [validate] accepts always has a model
    configuration, [get_llm_config] raising nothing, with the configured
    temperature and token limit, and its key check passes. *)
Theorem validated_config_has_model (cfg : RAGConfig) :
  validate cfg = true ->
  (exists llm,
      get_llm_config cfg = inr llm /\
      (model llm = "gpt-4o" \/ model llm = "gemini-1.5-pro") /\
      temperature llm = TEMPERATURE cfg /\
      max_tokens llm = MAX_TOKENS cfg) /\
  _check_api_keys cfg = true.
Proof.
  rewrite validate_accepts. rewrite <- !truthy_nonempty.
  intros [[[Hp Hk]|[Hp Hk]] _]; unfold get_llm_config, _check_api_keys;
    rewrite Hp; cbn; (split; [eexists; repeat split; auto|exact Hk]).
Qed.

Lemma validate_accepts_witness :
  validate (mkConfig "gemini" "key" "" 3 0.7%float 120 1500 0.2%float) = true.
Proof.
  apply validate_accepts. vm_compute.
  repeat split; try discriminate; try reflexivity.
  right. split; [reflexivity|discriminate].
Defined.

Lemma validated_config_has_model_witness :
  _check_api_keys (mkConfig "openai" "" "sk" 3 0.7%float 120 1500 0.2%float)
  = true.
Proof.
  apply (validated_config_has_model
           (mkConfig "openai" "" "sk" 3 0.7%float 120 1500 0.2%float)).
  vm_compute; reflexivity.
Defined.

End ConfigFacts.

(** ** Properties of the table scraper *)

Module UtilsFacts.
Import Utils.










End UtilsFacts.
